(** * conseval.scorer: scorer resolution, construction and scoring pipeline

    A shallow embedding of [src/conseval/scorer.py].  Python values are an
    inductive type, exceptions are an error monad, dictionaries are [gmap]s
    keyed by strings, and floats are IEEE binary64 primitive floats. *)

From Stdlib Require Import ZArith String Ascii List Bool Lia.
From Stdlib Require Import Floats.PrimFloat Uint63.
From stdpp Require Import base option list strings pretty gmap fin_maps.

Local Open Scope string_scope.
Local Open Scope Z_scope.

(** ** Python values *)

(** Values a parameter or a plain module attribute can hold. *)
Inductive pyval : Type :=
| VNone
| VBool (b : bool)
| VInt (z : Z)
| VFloat (f : float)
| VStr (s : string).

(** Truth value of an object in a condition ([if x:]). *)
Definition truthy (v : pyval) : bool :=
  match v with
  | VNone => false
  | VBool b => b
  | VInt z => negb (z =? 0)
  | VFloat f => negb (PrimFloat.eqb f 0%float)
  | VStr s => negb (String.eqb s "")
  end.

(** ** Exceptions and the error monad *)

Inductive param_error_kind : Type :=
| UnknownParameter
| InvalidType
| InvalidValue.

Inductive exn : Type :=
| ImportError (msg : string)
| AttributeError (msg : string)
| TypeError (msg : string)
| NotImplementedError
| ParamError (kind : param_error_kind) (param : string).

(** [str(e)]: the message an exception prints as. *)
Definition exn_str (e : exn) : string :=
  match e with
  | ImportError msg | AttributeError msg | TypeError msg => msg
  | NotImplementedError => ""
  | ParamError UnknownParameter p => "unknown parameter: " +:+ p
  | ParamError InvalidType p => "invalid type for parameter: " +:+ p
  | ParamError InvalidValue p => "invalid value for parameter: " +:+ p
  end.

Inductive outcome (A : Type) : Type :=
| Ok (a : A)
| Raise (e : exn).
Arguments Ok {A} a.
Arguments Raise {A} e.

#[global] Instance outcome_ret : MRet outcome := fun A a => Ok a.
#[global] Instance outcome_bind : MBind outcome := fun A B f m =>
  match m with
  | Ok a => f a
  | Raise e => Raise e
  end.

(** [try: body except (classes), e: handler]. *)
Definition try_except {A} (body : outcome A) (catches : exn -> bool)
    (handler : exn -> outcome A) : outcome A :=
  match body with
  | Ok a => Ok a
  | Raise e => if catches e then handler e else Raise e
  end.

(** ** Python string methods used by the module *)

Module PyStr.

(** [s.split(sep)] for a one-character separator: every occurrence cuts,
    empty pieces are kept, and the result is never empty. *)
Fixpoint split (sep : ascii) (s : string) : list string :=
  match s with
  | EmptyString => [EmptyString]
  | String c rest =>
      if Ascii.eqb c sep then EmptyString :: split sep rest
      else match split sep rest with
           | [] => [String c EmptyString]
           | w :: ws => String c w :: ws
           end
  end.

(** [sep.join(pieces)]. *)
Fixpoint join (sep : string) (pieces : list string) : string :=
  match pieces with
  | [] => ""
  | [p] => p
  | p :: ps => p +:+ sep +:+ join sep ps
  end.

Definition is_upper (c : ascii) : bool :=
  let n := nat_of_ascii c in (65 <=? n)%nat && (n <=? 90)%nat.

Definition is_lower (c : ascii) : bool :=
  let n := nat_of_ascii c in (97 <=? n)%nat && (n <=? 122)%nat.

Definition to_upper (c : ascii) : ascii :=
  if is_lower c then ascii_of_nat (nat_of_ascii c - 32) else c.

Definition to_lower (c : ascii) : ascii :=
  if is_upper c then ascii_of_nat (nat_of_ascii c + 32) else c.

(** [s.lower()]. *)
Fixpoint lower (s : string) : string :=
  match s with
  | EmptyString => EmptyString
  | String c rest => String (to_lower c) (lower rest)
  end.

(** [s.capitalize()]: first character upper-cased, the rest lower-cased. *)
Definition capitalize (s : string) : string :=
  match s with
  | EmptyString => EmptyString
  | String c rest => String (to_upper c) (lower rest)
  end.

(** [pieces[-1]] on the result of a split (never empty). *)
Definition last_piece (pieces : list string) : string := List.last pieces "".

(** Whether a character occurs in a string. *)
Fixpoint contains (c : ascii) (s : string) : bool :=
  match s with
  | EmptyString => false
  | String c' rest => Ascii.eqb c' c || contains c rest
  end.

(** No upper-case ASCII letter: what a snake_case identifier is made of. *)
Fixpoint no_upper (s : string) : bool :=
  match s with
  | EmptyString => true
  | String c rest => negb (is_upper c) && no_upper rest
  end.

End PyStr.

(** ** Parameter schema (conseval.params) *)

(** The type tags a descriptor's third argument takes ([int], [float],
    [bool], [str]) and the values each produces. *)
Inductive ptype : Type := TInt | TFloat | TBool | TStr.

Definition denote (t : ptype) : Type :=
  match t with
  | TInt => Z
  | TFloat => float
  | TBool => bool
  | TStr => string
  end.

Definition inject {t : ptype} : denote t -> pyval :=
  match t with
  | TInt => VInt
  | TFloat => VFloat
  | TBool => VBool
  | TStr => VStr
  end.

(** The builtin constructors [int(x)], [float(x)], [bool(x)], [str(x)] applied
    to an arbitrary value; [None] when the call raises.  They belong to the
    language runtime and are kept abstract. *)
Class Builtins : Type := {
  coerce : forall t : ptype, pyval -> option (denote t)
}.

(** [ParamDef(name, default, type, validator, help=...)]. *)
Record ParamDef : Type := mkParamDef {
  pd_name : string;
  pd_default : pyval;
  pd_type : ptype;
  pd_validator : option (denote pd_type -> bool);
  pd_help : string
}.

Module Params.

(** [Params(d1, d2, ...)]: an ordered collection of descriptors. *)
Definition t : Type := list ParamDef.

Definition names (schema : t) : list string := pd_name <$> schema.


(** Modelled from the spec: the inheritance merge of conseval.params (the
    module is not among the sources).  A descriptor sharing a name with one
    of the schema replaces it in place; a new one is appended. *)
Fixpoint override (d : ParamDef) (schema : t) : t :=
  match schema with
  | [] => [d]
  | d' :: rest =>
      if String.eqb (pd_name d') (pd_name d) then d :: rest
      else d' :: override d rest
  end.

(** Modelled from the spec: a subclass's effective schema is the
    superclass's descriptor list with the subclass's descriptors merged in,
    in declaration order. *)
Definition extend (base own : t) : t :=
  fold_left (fun schema d => override d schema) own base.

End Params.

(** ** Alignments (external collaborator) *)

(** An alignment exposes its rows as [msa]; the first row is the reference
    sequence whose columns are scored. *)
Record Alignment : Type := mkAlignment {
  msa : list string
}.

Definition reference (a : Alignment) : string := List.hd "" (msa a).

Definition columns (a : Alignment) : nat := String.length (reference a).

(** ** Classes, instances and modules *)

(** A scorer class: a subclass of [Scorer] (or [Scorer] itself) that keeps the
    inherited [__init__] and [score].  [cls_own_params] are the descriptors it
    declares on top of the inherited ones; [cls__score] is its override of
    [_score], reading the instance's attributes, if it has one. *)
Record pyclass : Type := mkClass {
  cls_module : string;
  cls_name : string;
  cls_own_params : Params.t;
  cls__score : option (gmap string pyval -> Alignment -> outcome (list float))
}.

Record instance : Type := mkInstance {
  inst_cls : pyclass;
  inst_dict : gmap string pyval
}.

(** What a module attribute can be bound to. *)
Inductive pyobj : Type :=
| PVal (v : pyval)
| PClass (c : pyclass).

Definition PNone : pyobj := PVal VNone.

Definition truthy_obj (o : pyobj) : bool :=
  match o with
  | PVal v => truthy v
  | PClass _ => true
  end.

(** A module object: its attribute dictionary. *)
Abbreviation pymodule := (gmap string pyobj).

Definition hasattr (m : pymodule) (name : string) : bool :=
  match m !! name with
  | Some _ => true
  | None => false
  end.

Definition getattr (m : pymodule) (name : string) : outcome pyobj :=
  match m !! name with
  | Some o => Ok o
  | None => Raise (AttributeError ("'module' object has no attribute '" +:+ name +:+ "'"))
  end.

(** Attribute read on an instance ([self.x]) and attribute write. *)
Definition getattr_inst (self : instance) (name : string) : outcome pyval :=
  match inst_dict self !! name with
  | Some v => Ok v
  | None =>
      Raise (AttributeError ("'" +:+ cls_name (inst_cls self)
                             +:+ "' object has no attribute '" +:+ name +:+ "'"))
  end.

Definition setattr_inst (self : instance) (name : string) (v : pyval) : instance :=
  {| inst_cls := inst_cls self; inst_dict := <[name := v]> (inst_dict self) |}.

(** ** Parameterized base (conseval.params.WithParams) *)

Module WithParams.
Section WithBuiltins.
Context `{Builtins}.

(** Modelled from the spec: the first supplied name that the schema does
    not declare is an "unknown parameter" error. *)
Definition check_known (schema : Params.t) (params : gmap string pyval)
    : outcome unit :=
  match List.filter (fun k => negb (bool_decide (k ∈ Params.names schema)))
                    (map_to_list params).*1 with
  | [] => Ok tt
  | k :: _ => Raise (ParamError UnknownParameter k)
  end.

(** Modelled from the spec: the value of one descriptor.  A supplied value
    is coerced to the descriptor's type (failure: "invalid type"), then
    checked by the validator if there is one (failure: "invalid value"); an
    absent one takes the default, which is not validated again. *)
Definition resolve (d : ParamDef) (params : gmap string pyval) : outcome pyval :=
  match params !! pd_name d with
  | None => Ok (pd_default d)
  | Some raw =>
      match coerce (pd_type d) raw with
      | None => Raise (ParamError InvalidType (pd_name d))
      | Some v =>
          match pd_validator d with
          | None => Ok (inject v)
          | Some valid =>
              if valid v then Ok (inject v)
              else Raise (ParamError InvalidValue (pd_name d))
          end
      end
  end.

(** Modelled from the spec: each resolved value is installed as an
    attribute of the instance, in schema order. *)
Fixpoint install (schema : Params.t) (params : gmap string pyval)
    (self : instance) : outcome instance :=
  match schema with
  | [] => Ok self
  | d :: rest =>
      v ← resolve d params;
      install rest params (setattr_inst self (pd_name d) v)
  end.

(** Modelled from the spec: [WithParams.__init__(self, **params)] for an
    instance whose class has the effective schema [schema]. *)
Definition __init__ (schema : Params.t) (self : instance)
    (params : gmap string pyval) : outcome instance :=
  _ ← check_known schema params;
  install schema params self.

End WithBuiltins.
End WithParams.

(** ** The Scorer class *)

Module Scorer.

(** [params = Params(ParamDef('window_size', 2, int, lambda x: x>=0, ...),
    ParamDef('window_lambda', .5, float, lambda x: 0<=x<=1, ...),
    ParamDef('normalize', False, bool, ...))]. *)
Definition window_size_def : ParamDef :=
  mkParamDef "window_size" (VInt 2) TInt (Some (fun x : Z => x >=? 0))
    "Number of residues on either side included in the window".

Definition window_lambda_def : ParamDef :=
  mkParamDef "window_lambda" (VFloat 0.5) TFloat
    (Some (fun x : float => PrimFloat.leb 0 x && PrimFloat.leb x 1))
    "lambda for window heuristic linear combination. Meaningful only if window_size != 0.".

Definition normalize_def : ParamDef :=
  mkParamDef "normalize" (VBool false) TBool None
    "return z-scores (over the alignment) of each column, instead of original scores".

Definition params : Params.t :=
  [window_size_def; window_lambda_def; normalize_def].

(** The class object itself: defined in conseval.scorer, no descriptors of
    its own, [_score] not overridden. *)
Definition cls : pyclass :=
  {| cls_module := "conseval.scorer"; cls_name := "Scorer";
     cls_own_params := []; cls__score := None |}.

(** Modelled from the spec: [type(self).params] for a class below [Scorer],
    the inheritance merge of conseval.params applied to [Scorer.params] and
    the class's own descriptors.  For a class several levels below [Scorer],
    [cls_own_params] lists the descriptors declared at each level, the level
    nearest to [Scorer] first: merging them in one go is merging level by
    level. *)
Definition class_params (c : pyclass) : Params.t :=
  Params.extend params (cls_own_params c).

(** [".".join(type(self).__module__.split('.')[1:])]. *)
Definition module_name (c : pyclass) : string :=
  PyStr.join "." (drop 1 (PyStr.split "." (cls_module c))).

(** The base class's [_score]: [raise NotImplementedError()]. *)
Definition _score (self : instance) (alignment : Alignment)
    : outcome (list float) :=
  Raise NotImplementedError.

(** [self._score(alignment)], dispatched on the instance's class. *)
Definition call__score (self : instance) (alignment : Alignment)
    : outcome (list float) :=
  match cls__score (inst_cls self) with
  | Some f => f (inst_dict self) alignment
  | None => _score self alignment
  end.

Section WithBuiltins.
Context `{Builtins}.

(** [super(Scorer, self).__init__] on the same keyword arguments and then the [name]
    attribute. *)
Definition __init__ (self : instance) (params : gmap string pyval)
    : outcome instance :=
  self ← WithParams.__init__ (class_params (inst_cls self)) self params;
  mret (setattr_inst self "name" (VStr (module_name (inst_cls self)))).

(** Calling the class on keyword arguments: a fresh instance, initialised. *)
Definition new (c : pyclass) (params : gmap string pyval) : outcome instance :=
  __init__ {| inst_cls := c; inst_dict := ∅ |} params.

End WithBuiltins.

Section Pipeline.
(** [window_scores] and [norm_scores] of conseval.utils.general. *)
Variable window_scores : list float -> pyval -> pyval -> outcome (list float).
Variable norm_scores : list float -> Z -> outcome (list float).

(** [score(self, alignment)].  The two [time.time()] readings only feed
    the unused local [dt]. *)
Definition score (self : instance) (alignment : Alignment)
    : outcome (list float) :=
  scores ← call__score self alignment;
  window_size ← getattr_inst self "window_size";
  scores ← (if truthy window_size then
              window_size ← getattr_inst self "window_size";
              window_lambda ← getattr_inst self "window_lambda";
              window_scores scores window_size window_lambda
            else mret scores);
  normalize ← getattr_inst self "normalize";
  scores ← (if truthy normalize then norm_scores scores 5
            else mret scores);
  mret scores.

End Pipeline.

(** [set_output_id(self, output_id)]: [self.output_id = output_id]. *)
Definition set_output_id (self : instance) (output_id : pyval) : instance :=
  setattr_inst self "output_id" output_id.

(** [set_output_dir(self, out_dir)]: [self.output_dir = out_dir]. *)
Definition set_output_dir (self : instance) (out_dir : pyval) : instance :=
  setattr_inst self "output_dir" out_dir.

End Scorer.

(** ** Fetch tools *)

Section Fetch.
Context `{Builtins}.
(** [__import__(fullname, fromlist=['x'])]: the module of that dotted name,
    or the exception the import raises. *)
Variable __import__ : string -> outcome pymodule.

Definition import_or_attribute_error (e : exn) : bool :=
  match e with
  | ImportError _ | AttributeError _ => true
  | _ => false
  end.

(** The pieces [name.split('.')[-1].split('_')], each capitalized, joined
    with the empty separator. *)
Definition scorer_clsname (name : string) : string :=
  PyStr.join "" (PyStr.capitalize <$>
                 PyStr.split "_" (PyStr.last_piece (PyStr.split "." name))).

Definition get_scorer_cls (name : string) : outcome pyobj :=
  try_except
    (scorer_module ← __import__ ("scorers." +:+ name);
     let scorer_clsname := scorer_clsname name in
     if hasattr scorer_module "IS_BASE_SCORER" then
       flag ← getattr scorer_module "IS_BASE_SCORER";
       if truthy_obj flag then mret PNone
       else getattr scorer_module scorer_clsname
     else getattr scorer_module scorer_clsname)
    import_or_attribute_error
    (fun e => Raise (ImportError (exn_str e +:+ ": " +:+ name
                                  +:+ " is not a valid scorer."))).

(** Calling what the lookup returned on the keyword arguments. *)
Definition call (scorer_cls : pyobj) (params : gmap string pyval)
    : outcome instance :=
  match scorer_cls with
  | PClass c => Scorer.new c params
  | PVal VNone => Raise (TypeError "'NoneType' object is not callable")
  | PVal (VBool _) => Raise (TypeError "'bool' object is not callable")
  | PVal (VInt _) => Raise (TypeError "'int' object is not callable")
  | PVal (VFloat _) => Raise (TypeError "'float' object is not callable")
  | PVal (VStr _) => Raise (TypeError "'str' object is not callable")
  end.

Definition get_scorer (name : string) (params : gmap string pyval)
    : outcome instance :=
  scorer_cls ← get_scorer_cls name;
  scorer ← call scorer_cls params;
  mret scorer.

End Fetch.

(** ** Post-processing transforms (conseval.utils.general) *)

Module General.

Definition float_of_nat (n : nat) : float :=
  PrimFloat.of_uint63 (Uint63.of_Z (Z.of_nat n)).

Definition fsum (l : list float) : float := fold_left PrimFloat.add l 0%float.

Definition mean (l : list float) : float :=
  (fsum l / float_of_nat (length l))%float.

(** Modelled from the spec: the neighbours a column is averaged with
    (conseval.utils.general is not among the sources), the scores at the
    positions within [w] of position [i] that exist, [i] itself left out. *)
Definition neighbours (scores : list float) (i w : nat) : list float :=
  (take (i - (i - w)) (drop (i - w) scores) ++ take w (drop (S i) scores))%list.

(** Modelled from the spec: the windowing transform (conseval.utils.general
    is not among the sources).  Each column's new score is the combination,
    weighted by [lam], of its own score and the average of the scores of
    its neighbours within [w] columns; positions out of range are left out
    of the average, and a column with no neighbour keeps its score. *)
Definition window (scores : list float) (w : Z) (lam : float) : list float :=
  imap (fun i x =>
          match neighbours scores i (Z.to_nat w) with
          | [] => x
          | ns => (lam * x + (1 - lam) * mean ns)%float
          end) scores.

(** Modelled from the spec: [window_scores(scores, window_size,
    window_lambda)] on an integer width and a float weight. *)
Definition window_scores (scores : list float) (window_size window_lambda : pyval)
    : outcome (list float) :=
  match window_size, window_lambda with
  | VInt w, VFloat lam => Ok (window scores w lam)
  | _, _ => Raise (TypeError "window_scores: an int and a float are required")
  end.

Fixpoint insert_sorted (x : float) (l : list float) : list float :=
  match l with
  | [] => [x]
  | y :: rest => if PrimFloat.leb x y then x :: l else y :: insert_sorted x rest
  end.

Definition sorted (l : list float) : list float := foldr insert_sorted [] l.

(** Modelled from the spec: the scores the mean and the standard deviation
    are estimated on (conseval.utils.general is not among the sources), all
    but the [k] lowest and the [k] highest, or all of them when fewer than
    [2*k+1] are there. *)
Definition trimmed (scores : list float) (k : nat) : list float :=
  if (length scores <? 2 * k + 1)%nat then scores
  else take (length scores - 2 * k) (drop k (sorted scores)).

Definition stddev (l : list float) : float :=
  let mu := mean l in
  PrimFloat.sqrt (mean ((fun x => ((x - mu) * (x - mu))%float) <$> l)).

(** Modelled from the spec: the z-score transform (conseval.utils.general is
    not among the sources).  Every column gets [(x - mean) / stddev], mean
    and deviation being taken over the trimmed scores; a zero deviation
    gives all zeros. *)
Definition z_scores (scores : list float) (filter : Z) : list float :=
  let kept := trimmed scores (Z.to_nat filter) in
  let mu := mean kept in
  let sd := stddev kept in
  if PrimFloat.eqb sd 0 then (fun _ => 0%float) <$> scores
  else (fun x => ((x - mu) / sd)%float) <$> scores.

(** Modelled from the spec: [norm_scores(scores, filter=...)], already
    collected into a list. *)
Definition norm_scores (scores : list float) (filter : Z) : outcome (list float) :=
  Ok (z_scores scores filter).

End General.

(** [Scorer.score] with the transforms of conseval.utils.general. *)
Definition score : instance -> Alignment -> outcome (list float) :=
  Scorer.score General.window_scores General.norm_scores.

(** ** The instance attributes the pipeline reads *)

(** An instance whose three inherited parameters hold an integer, a float
    and a boolean. *)
Definition configured (self : instance) (w : Z) (lam : float) (nz : bool) : Prop :=
  inst_dict self !! "window_size" = Some (VInt w) /\
  inst_dict self !! "window_lambda" = Some (VFloat lam) /\
  inst_dict self !! "normalize" = Some (VBool nz).

(** A value passes a descriptor's validator, or the descriptor has none. *)
Definition accepts (d : ParamDef) (v : denote (pd_type d)) : bool :=
  match pd_validator d with
  | Some valid => valid v
  | None => true
  end.

(** ** Conditions on the scorers package *)

(** The module declares the abstract-base marker: [IS_BASE_SCORER] is bound
    to a true value. *)
Definition declares_base_marker (m : pymodule) : bool :=
  match m !! "IS_BASE_SCORER" with
  | Some flag => truthy_obj flag
  | None => false
  end.

(** The two ways a name fails to resolve, with the message of the underlying
    exception: the module of that name cannot be imported, or it is there,
    is not marked as a base, and has no attribute of the derived class
    name. *)
Inductive lookup_failure (import : string -> outcome pymodule) (name : string)
    : string -> Prop :=
| module_not_found (msg : string) :
    import ("scorers." +:+ name) = Raise (ImportError msg) ->
    lookup_failure import name msg
| class_absent (m : pymodule) :
    import ("scorers." +:+ name) = Ok m ->
    declares_base_marker m = false ->
    m !! scorer_clsname name = None ->
    lookup_failure import name
      ("'module' object has no attribute '" +:+ scorer_clsname name +:+ "'").

(** ** The naming convention in the spec's words *)

(** Capitalized-concatenated form of a lower-case-with-underscores name: the
    first letter of every underscore-separated word in upper case, the words
    concatenated. *)
Definition upper_first (s : string) : string :=
  match s with
  | EmptyString => EmptyString
  | String c rest => String (PyStr.to_upper c) rest
  end.

Definition capitalized_concatenated (snake : string) : string :=
  PyStr.join "" (upper_first <$> PyStr.split "_" snake).

(** ** A small scorers package to evaluate the definitions on *)

Module Example.

(** The constructors on values that already have the requested type, and
    [bool] on anything; enough for the calls evaluated below. *)
Definition builtins : Builtins :=
  {| coerce := fun t =>
       match t return pyval -> option (denote t) with
       | TInt => fun v =>
           match v with
           | VInt z => Some z
           | VBool b => Some (if b then 1 else 0)
           | _ => None
           end
       | TFloat => fun v => match v with VFloat f => Some f | _ => None end
       | TBool => fun v => Some (truthy v)
       | TStr => fun v => match v with VStr s => Some s | _ => None end
       end |}.

(** A concrete scorer in scorers/caprasingh07/js_divergence.py whose raw
    score of a column is its index. *)
Definition JsDivergence : pyclass :=
  {| cls_module := "scorers.caprasingh07.js_divergence";
     cls_name := "JsDivergence";
     cls_own_params := [];
     cls__score := Some (fun _ a => Ok (General.float_of_nat <$> seq 0 (columns a))) |}.

(** An intermediate base in scorers/base.py, marked as such. *)
Definition BaseScorer : pyclass :=
  {| cls_module := "scorers.base"; cls_name := "BaseScorer";
     cls_own_params := []; cls__score := None |}.



Definition js_divergence_module : pymodule :=
  {[ "JsDivergence" := PClass JsDivergence; "Scorer" := PClass Scorer.cls ]}.

Definition base_module : pymodule :=
  {[ "IS_BASE_SCORER" := PVal (VBool true); "BaseScorer" := PClass BaseScorer ]}.

(** Another marked module, in scorers/windowed.py, whose class does carry
    the name derived from the module's. *)
Definition Windowed : pyclass :=
  {| cls_module := "scorers.windowed"; cls_name := "Windowed";
     cls_own_params := []; cls__score := None |}.

Definition windowed_module : pymodule :=
  {[ "IS_BASE_SCORER" := PVal (VInt 1); "Windowed" := PClass Windowed ]}.

Definition import (fullname : string) : outcome pymodule :=
  if String.eqb fullname "scorers.caprasingh07.js_divergence" then Ok js_divergence_module
  else if String.eqb fullname "scorers.base" then Ok base_module
  else if String.eqb fullname "scorers.windowed" then Ok windowed_module
  else Raise (ImportError ("No module named " +:+ fullname)).

Definition alignment : Alignment :=
  {| msa := ["MKVLAAGIVG"; "MKILAAGLVG"; "MRVLSAGIVG"] |}.

Definition scorer : instance :=
  {| inst_cls := JsDivergence;
     inst_dict := {[ "window_size" := VInt 1; "window_lambda" := VFloat 0.5;
                     "normalize" := VBool false;
                     "name" := VStr "caprasingh07.js_divergence" ]} |}.

End Example.

(** ** The test-set script (compute_testset.py) *)

Module ComputeTestset.

(** How a run of the script can end early: [sys.argv[1]] out of range, the
    dataset name missing from [DATASET_CONFIGS], or an exception raised by
    one of the collaborators.  The constructor records where the exception
    arose, not its class: a collaborator may itself raise an IndexError or a
    KeyError, which the caller of the script cannot tell from the script's
    own. *)
Inductive failure (E : Type) : Type :=
| IndexError
| KeyError (key : string)
| Collaborator (e : E).
Arguments IndexError {E}.
Arguments KeyError {E} key.
Arguments Collaborator {E} e.

(** What a run leaves behind: the lines printed and the list [alns]. *)
Record state (A : Type) : Type := mkState {
  stdout : list string;
  alns : list A
}.
Arguments mkState {A} stdout alns.
Arguments stdout {A} s.
Arguments alns {A} s.

(** A dataset configuration: the methods and the attribute the script uses.
    [E] are the exceptions of the collaborators, [F] the test files, [P] the
    parsing functions. *)
Record DatasetConfig (E F P : Type) : Type := mkDatasetConfig {
  get_align_files : E + list string;
  get_test_file : string -> E + F;
  parse_testset_fn : P
}.
Arguments get_align_files {E F P} d.
Arguments get_test_file {E F P} d align_file.
Arguments parse_testset_fn {E F P} d.

Section Script.
Variables E F P A : Type.
(** [Alignment(align_file, test_file=..., parse_testset_fn=...)]. *)
Variable new_alignment : string -> F -> P -> E + A.
(** [DATASET_CONFIGS]. *)
Variable DC : gmap string (DatasetConfig E F P).

(** [print x]: one more line on the standard output. *)
Definition print (st : state A) (line : string) : state A :=
  mkState (stdout st ++ [line]) (alns st).

(** The body of the [for] loop, over the files still to be read. *)
Fixpoint read_all (dc : DatasetConfig E F P) (align_files : list string)
    (st : state A) : state A * option (failure E) :=
  match align_files with
  | [] => (st, None)
  | align_file :: rest =>
      match get_test_file dc align_file with
      | inl e => (st, Some (Collaborator e))
      | inr test_file =>
          match new_alignment align_file test_file (parse_testset_fn dc) with
          | inl e => (st, Some (Collaborator e))
          | inr aln => read_all dc rest (mkState (stdout st) (alns st ++ [aln]))
          end
      end
  end.

(** The script, run on [sys.argv]: the state it ends in and the failure that
    ended it, if any. *)
Definition main (argv : list string) : state A * option (failure E) :=
  let st := mkState [] [] in
  match argv !! 1%nat with
  | None => (st, Some IndexError)
  | Some key =>
      match DC !! key with
      | None => (st, Some (KeyError key))
      | Some dc =>
          match get_align_files dc with
          | inl e => (st, Some (Collaborator e))
          | inr align_files =>
              read_all dc align_files (print st (pretty (length align_files)))
          end
      end
  end.

End Script.
Arguments print {A} st line.
Arguments read_all {E F P A} new_alignment dc align_files st.
Arguments main {E F P A} new_alignment DC argv.

(** One file read: its test file is found and its alignment is built. *)
Definition reads {E F P A : Type} (new_alignment : string -> F -> P -> E + A)
    (dc : DatasetConfig E F P) (align_file : string) (aln : A) : Prop :=
  exists test_file,
    get_test_file dc align_file = inr test_file /\
    new_alignment align_file test_file (parse_testset_fn dc) = inr aln.

(** One file not read: its test file is not found, or its alignment is not
    built; [e] is the exception. *)
Definition fails {E F P A : Type} (new_alignment : string -> F -> P -> E + A)
    (dc : DatasetConfig E F P) (align_file : string) (e : E) : Prop :=
  get_test_file dc align_file = inl e \/
  exists test_file,
    get_test_file dc align_file = inr test_file /\
    new_alignment align_file test_file (parse_testset_fn dc) = inl e.

End ComputeTestset.

(** Two datasets to run the script on: in the second, the test file of
    b.aln cannot be found. *)
Module TestsetExample.

Definition pfam : ComputeTestset.DatasetConfig string string unit :=
  {| ComputeTestset.get_align_files := inr ["a.aln"; "b.aln"; "c.aln"];
     ComputeTestset.get_test_file := fun f => inr (f +:+ ".test");
     ComputeTestset.parse_testset_fn := tt |}.

Definition cdd : ComputeTestset.DatasetConfig string string unit :=
  {| ComputeTestset.get_align_files := inr ["a.aln"; "b.aln"; "c.aln"];
     ComputeTestset.get_test_file := fun f =>
       if String.eqb f "b.aln" then inl "no test file" else inr (f +:+ ".test");
     ComputeTestset.parse_testset_fn := tt |}.

Definition DC : gmap string (ComputeTestset.DatasetConfig string string unit) :=
  {[ "pfam" := pfam; "cdd" := cdd ]}.

Definition new_alignment (align_file test_file : string) (_ : unit)
    : string + (string * string) :=
  inr (align_file, test_file).

End TestsetExample.

(** * Properties *)

(** ** The error monad *)

Lemma bind_Ok {A B} (a : A) (k : A -> outcome B) : (Ok a ≫= k) = k a.
Proof. reflexivity. Qed.

Lemma bind_Raise {A B} (e : exn) (k : A -> outcome B) : (Raise e ≫= k) = Raise e.
Proof. reflexivity. Qed.

Lemma bind_Ok_inv {A B} (m : outcome A) (k : A -> outcome B) (b : B) :
  (m ≫= k) = Ok b -> exists a, m = Ok a /\ k a = Ok b.
Proof. destruct m as [a|e]; [eauto | discriminate]. Qed.

(** ** Splitting and joining *)

Section Strings.
Import PyStr.
Variable sep : ascii.

Lemma split_nonempty s : split sep s <> [].
Proof.
  destruct s as [|c rest]; simpl; [discriminate|].
  destruct (Ascii.eqb c sep); [discriminate|].
  destruct (split sep rest); discriminate.
Qed.

Lemma split_no_sep s : contains sep s = false -> split sep s = [s].
Proof.
  induction s as [|c rest IH]; simpl; [reflexivity|].
  intros Hc. apply orb_false_iff in Hc as [Hc Hrest].
  rewrite Hc, (IH Hrest). reflexivity.
Qed.

(** [(a + sep + b).split(sep) == a.split(sep) + b.split(sep)]. *)
Lemma split_app_sep a b :
  split sep (a +:+ String sep b) = (split sep a ++ split sep b)%list.
Proof.
  induction a as [|c a IH]; simpl.
  - rewrite Ascii.eqb_refl. reflexivity.
  - destruct (Ascii.eqb c sep).
    + rewrite IH. reflexivity.
    + rewrite IH. pose proof (split_nonempty a) as Hne.
      destruct (split sep a) as [|w ws]; [congruence | reflexivity].
Qed.

Lemma join_cons p q ps :
  join (String sep "") (p :: q :: ps) = p +:+ String sep (join (String sep "") (q :: ps)).
Proof. reflexivity. Qed.

(** Joining the pieces back on the separator gives the string again. *)
Lemma join_split s : join (String sep "") (split sep s) = s.
Proof.
  induction s as [|c rest IH]; [reflexivity|].
  cbn [split]. destruct (Ascii.eqb_spec c sep) as [->|Hne].
  - pose proof (split_nonempty rest) as Hn.
    destruct (split sep rest) as [|w ws]; [congruence|].
    rewrite join_cons, IH. reflexivity.
  - pose proof (split_nonempty rest) as Hn.
    destruct (split sep rest) as [|w ws]; [congruence|].
    destruct ws as [|w' ws].
    + simpl in *. congruence.
    + rewrite join_cons. rewrite join_cons in IH. rewrite <- IH. reflexivity.
Qed.

Lemma last_piece_split_app a b :
  last_piece (split sep (a +:+ String sep b)) = last_piece (split sep b).
Proof.
  rewrite split_app_sep. unfold last_piece.
  pose proof (split_nonempty b) as Hn.
  destruct (split sep b) as [|w ws] using rev_ind; [congruence|].
  rewrite app_assoc, !last_last. reflexivity.
Qed.

Lemma last_piece_segment a seg :
  contains sep seg = false ->
  last_piece (split sep (a +:+ String sep seg)) = seg.
Proof.
  intros Hseg. rewrite last_piece_split_app, (split_no_sep _ Hseg). reflexivity.
Qed.

(** Dropping the first piece of [root + sep + rest] and joining gives
    back [rest]. *)
Lemma join_drop_first root rest :
  contains sep root = false ->
  join (String sep "") (drop 1 (split sep (root +:+ String sep rest))) = rest.
Proof.
  intros Hroot. rewrite split_app_sep, (split_no_sep _ Hroot). simpl.
  rewrite drop_0. apply join_split.
Qed.

Lemma split_no_upper s :
  no_upper s = true -> Forall (fun p => no_upper p = true) (split sep s).
Proof.
  induction s as [|c rest IH]; simpl; intros Hs.
  - repeat constructor.
  - apply andb_true_iff in Hs as [Hc Hrest]. specialize (IH Hrest).
    destruct (Ascii.eqb c sep).
    + constructor; [reflexivity | exact IH].
    + destruct (split sep rest) as [|w ws].
      * repeat constructor. simpl. rewrite Hc. reflexivity.
      * inversion IH; subst. constructor; [|assumption].
        simpl. rewrite Hc. assumption.
Qed.

End Strings.

Lemma lower_no_upper s : PyStr.no_upper s = true -> PyStr.lower s = s.
Proof.
  induction s as [|c rest IH]; simpl; [reflexivity|].
  intros Hs. apply andb_true_iff in Hs as [Hc Hrest].
  unfold PyStr.to_lower. apply negb_true_iff in Hc. rewrite Hc, (IH Hrest).
  reflexivity.
Qed.

Lemma capitalize_no_upper s :
  PyStr.no_upper s = true -> PyStr.capitalize s = upper_first s.
Proof.
  destruct s as [|c rest]; simpl; [reflexivity|].
  intros Hs. apply andb_true_iff in Hs as [_ Hrest].
  rewrite (lower_no_upper _ Hrest). reflexivity.
Qed.

(** On a lower-case segment the class name the code derives is the
    capitalized-concatenated form. *)
Lemma scorer_clsname_snake ns seg :
  PyStr.contains "." seg = false ->
  PyStr.no_upper seg = true ->
  scorer_clsname (ns +:+ "." +:+ seg) = capitalized_concatenated seg.
Proof.
  intros Hdot Hup. unfold scorer_clsname, capitalized_concatenated.
  change (ns +:+ "." +:+ seg) with (ns +:+ String "." seg).
  rewrite (last_piece_segment _ _ _ Hdot). f_equal.
  pose proof (split_no_upper "_" seg Hup) as Hall.
  induction Hall as [|p ps Hp _ IH]; [reflexivity|].
  rewrite !fmap_cons, IH, (capitalize_no_upper _ Hp). reflexivity.
Qed.

(** ** Merging schemas *)

Lemma names_cons d schema :
  Params.names (d :: schema) = pd_name d :: Params.names schema.
Proof. reflexivity. Qed.

Lemma override_names_elem n d schema :
  n ∈ Params.names (Params.override d schema) <->
  n = pd_name d \/ n ∈ Params.names schema.
Proof.
  induction schema as [|d' rest IH]; cbn [Params.override].
  - rewrite names_cons. change (Params.names []) with (@nil string). set_solver.
  - destruct (String.eqb_spec (pd_name d') (pd_name d)) as [Heq|Hne];
      rewrite !names_cons, ?Heq, !elem_of_cons; [tauto|].
    rewrite IH. tauto.
Qed.

Lemma override_NoDup d schema :
  NoDup (Params.names schema) -> NoDup (Params.names (Params.override d schema)).
Proof.
  induction schema as [|d' rest IH]; cbn [Params.override]; intros Hnd.
  - rewrite names_cons. apply NoDup_singleton.
  - rewrite names_cons in Hnd. apply NoDup_cons in Hnd as [Hnotin Hrest].
    destruct (String.eqb_spec (pd_name d') (pd_name d)) as [Heq|Hne];
      rewrite names_cons; apply NoDup_cons.
    + rewrite <- Heq. split; assumption.
    + split; [|auto]. rewrite override_names_elem. intros [Heq|Hin]; auto.
Qed.

Lemma elem_of_override d' d schema :
  d' ∈ Params.override d schema -> d' = d \/ d' ∈ schema.
Proof.
  induction schema as [|d0 rest IH]; simpl.
  - rewrite list_elem_of_singleton. auto.
  - destruct (String.eqb (pd_name d0) (pd_name d)); rewrite !elem_of_cons; [tauto|].
    intros [->|Hin]; [tauto|]. destruct (IH Hin); tauto.
Qed.

Lemma override_keeps d' d schema :
  d' ∈ schema -> pd_name d' <> pd_name d -> d' ∈ Params.override d schema.
Proof.
  intros Hin Hne. induction schema as [|d0 rest IH]; simpl.
  - inversion Hin.
  - apply elem_of_cons in Hin as [<-|Hin].
    + destruct (String.eqb_spec (pd_name d') (pd_name d)); [contradiction|].
      apply list_elem_of_here.
    + destruct (String.eqb (pd_name d0) (pd_name d)); apply list_elem_of_further; auto.
Qed.

Lemma extend_cons base d own :
  Params.extend base (d :: own) = Params.extend (Params.override d base) own.
Proof. reflexivity. Qed.

Lemma extend_NoDup base own :
  NoDup (Params.names base) -> NoDup (Params.names (Params.extend base own)).
Proof.
  revert base. induction own as [|d own IH]; intros base Hnd; [exact Hnd|].
  rewrite extend_cons. apply IH, override_NoDup, Hnd.
Qed.

Lemma elem_of_extend d base own :
  d ∈ Params.extend base own -> d ∈ base \/ d ∈ own.
Proof.
  revert base. induction own as [|d0 own IH]; intros base; [auto|].
  rewrite extend_cons. intros Hin. apply IH in Hin as [Hin|Hin].
  - apply elem_of_override in Hin as [->|Hin]; [right; apply list_elem_of_here | auto].
  - right. apply list_elem_of_further, Hin.
Qed.

Lemma extend_keeps d base own :
  d ∈ base -> pd_name d ∉ Params.names own -> d ∈ Params.extend base own.
Proof.
  revert base. induction own as [|d0 own IH]; intros base Hin Hnot; [exact Hin|].
  rewrite extend_cons. rewrite names_cons, not_elem_of_cons in Hnot.
  destruct Hnot as [Hne Hnot]. apply IH; [|exact Hnot].
  apply override_keeps; assumption.
Qed.


(** Merging level by level is merging the levels' descriptors in one go: the
    merge is transitive through any depth of subclassing. *)
Lemma extend_app base own1 own2 :
  Params.extend (Params.extend base own1) own2
  = Params.extend base (own1 ++ own2)%list.
Proof. unfold Params.extend. symmetry. apply fold_left_app. Qed.

Lemma scorer_params_NoDup : NoDup (Params.names Scorer.params).
Proof.
  change (NoDup ["window_size"; "window_lambda"; "normalize"]).
  apply (bool_decide_unpack _). vm_compute. reflexivity.
Qed.

Lemma class_params_NoDup c : NoDup (Params.names (Scorer.class_params c)).
Proof. apply extend_NoDup, scorer_params_NoDup. Qed.

(** ** Installing parameter values *)

Section Construction.
Context `{Builtins}.
Implicit Types (schema : Params.t) (params : gmap string pyval) (self : instance).


(** A descriptor only ever fails with a parameter error. *)
Lemma resolve_error d params e :
  WithParams.resolve d params = Raise e ->
  exists kind, e = ParamError kind (pd_name d).
Proof.
  unfold WithParams.resolve. intros Hr.
  destruct (params !! pd_name d) as [raw|]; [|discriminate].
  destruct (coerce (pd_type d) raw) as [v|]; [|inversion Hr; eauto].
  destruct (pd_validator d) as [valid|]; [|discriminate].
  destruct (valid v); [discriminate | inversion Hr; eauto].
Qed.

(** A supplied value the validator rejects is an "invalid value" error. *)
Lemma resolve_rejected d params raw v :
  params !! pd_name d = Some raw ->
  coerce (pd_type d) raw = Some v ->
  accepts d v = false ->
  WithParams.resolve d params = Raise (ParamError InvalidValue (pd_name d)).
Proof.
  unfold WithParams.resolve, accepts. intros -> -> Hacc.
  destruct (pd_validator d) as [valid|]; [|discriminate].
  rewrite Hacc. reflexivity.
Qed.


Lemma check_known_error schema params e :
  WithParams.check_known schema params = Raise e ->
  exists kind p, e = ParamError kind p.
Proof.
  unfold WithParams.check_known.
  destruct (List.filter _ _) as [|k ks]; [discriminate|].
  intros [= <-]. eauto.
Qed.

Lemma install_cons d schema params self :
  WithParams.install (d :: schema) params self =
    (v ← WithParams.resolve d params;
     WithParams.install schema params (setattr_inst self (pd_name d) v)).
Proof. reflexivity. Qed.

Lemma install_error schema params self e :
  WithParams.install schema params self = Raise e ->
  exists kind p, e = ParamError kind p.
Proof.
  revert self. induction schema as [|d rest IH]; intros self; [discriminate|].
  rewrite install_cons. destruct (WithParams.resolve d params) as [v|e'] eqn:Hr.
  - rewrite bind_Ok. apply IH.
  - rewrite bind_Raise. intros [= <-].
    destruct (resolve_error _ _ _ Hr) as [kind ->]. eauto.
Qed.

(** Once a descriptor of the schema fails, so does the installation. *)
Lemma install_raises schema params self d e :
  d ∈ schema ->
  WithParams.resolve d params = Raise e ->
  exists e', WithParams.install schema params self = Raise e'.
Proof.
  intros Hin Hr. revert self.
  induction schema as [|d0 rest IH]; intros self; [inversion Hin|].
  rewrite install_cons. apply elem_of_cons in Hin as [<-|Hin].
  - rewrite Hr, bind_Raise. eauto.
  - destruct (WithParams.resolve d0 params) as [v|e0].
    + rewrite bind_Ok. apply IH, Hin.
    + rewrite bind_Raise. eauto.
Qed.

Lemma install_cls schema params self self' :
  WithParams.install schema params self = Ok self' ->
  inst_cls self' = inst_cls self.
Proof.
  revert self. induction schema as [|d rest IH]; intros self.
  - intros [= <-]. reflexivity.
  - rewrite install_cons. intros Hi.
    apply bind_Ok_inv in Hi as (v & _ & Hi). apply IH in Hi. exact Hi.
Qed.

(** Attributes outside the schema are left alone. *)
Lemma install_lookup_other schema params self self' n :
  WithParams.install schema params self = Ok self' ->
  n ∉ Params.names schema ->
  inst_dict self' !! n = inst_dict self !! n.
Proof.
  revert self. induction schema as [|d rest IH]; intros self.
  - intros [= <-] _. reflexivity.
  - rewrite install_cons, names_cons, not_elem_of_cons. intros Hi [Hne Hnot].
    apply bind_Ok_inv in Hi as (v & _ & Hi).
    rewrite (IH _ Hi Hnot). simpl. apply lookup_insert_ne. congruence.
Qed.

(** Every descriptor's resolved value ends up as the attribute of its name. *)
Lemma install_lookup schema params self self' d :
  NoDup (Params.names schema) ->
  WithParams.install schema params self = Ok self' ->
  d ∈ schema ->
  exists v, WithParams.resolve d params = Ok v /\
            inst_dict self' !! pd_name d = Some v.
Proof.
  revert self. induction schema as [|d0 rest IH]; intros self Hnd Hi Hin;
    [inversion Hin|].
  rewrite names_cons in Hnd. apply NoDup_cons in Hnd as [Hnotin Hnd].
  rewrite install_cons in Hi. apply bind_Ok_inv in Hi as (v & Hr & Hi).
  apply elem_of_cons in Hin as [->|Hin].
  - exists v. split; [exact Hr|].
    rewrite (install_lookup_other _ _ _ _ _ Hi Hnotin). simpl.
    apply lookup_insert_eq.
  - eapply IH; eassumption.
Qed.


(** [Scorer.__init__], step by step. *)
Lemma Scorer_init_inv self params self' :
  Scorer.__init__ self params = Ok self' ->
  exists s, WithParams.install (Scorer.class_params (inst_cls self)) params self = Ok s /\
            self' = setattr_inst s "name" (VStr (Scorer.module_name (inst_cls s))).
Proof.
  unfold Scorer.__init__, WithParams.__init__. intros Hi.
  apply bind_Ok_inv in Hi as (s & Hw & Hi).
  apply bind_Ok_inv in Hw as ([] & _ & Hw).
  exists s. split; [exact Hw|]. inversion Hi. reflexivity.
Qed.

Lemma Scorer_init_error self params e :
  Scorer.__init__ self params = Raise e ->
  exists kind p, e = ParamError kind p.
Proof.
  unfold Scorer.__init__, WithParams.__init__.
  destruct (WithParams.check_known _ params) as [[]|e0] eqn:Hc.
  - rewrite bind_Ok.
    destruct (WithParams.install _ params self) as [s|e1] eqn:Hi.
    + rewrite bind_Ok. discriminate.
    + rewrite bind_Raise. intros [= <-]. eapply install_error, Hi.
  - rewrite !bind_Raise. intros [= <-]. eapply check_known_error, Hc.
Qed.

End Construction.

(** ** Resolution of a name to a class *)

Section Resolution.
Variable import : string -> outcome pymodule.

(** What the lookup does once the module is imported. *)
Lemma get_scorer_cls_imported name m :
  import ("scorers." +:+ name) = Ok m ->
  get_scorer_cls import name =
    if declares_base_marker m then Ok PNone
    else match m !! scorer_clsname name with
         | Some obj => Ok obj
         | None =>
             Raise (ImportError
               (("'module' object has no attribute '" +:+ scorer_clsname name +:+ "'")
                +:+ ": " +:+ name +:+ " is not a valid scorer."))
         end.
Proof.
  intros Himp. unfold get_scorer_cls, declares_base_marker, hasattr, getattr.
  rewrite Himp, bind_Ok.
  destruct (m !! "IS_BASE_SCORER") as [flag|].
  - rewrite bind_Ok. destruct (truthy_obj flag); [reflexivity|].
    destruct (m !! scorer_clsname name); reflexivity.
  - destruct (m !! scorer_clsname name); reflexivity.
Qed.

Lemma get_scorer_cls_import_error name msg :
  import ("scorers." +:+ name) = Raise (ImportError msg) ->
  get_scorer_cls import name =
    Raise (ImportError (msg +:+ ": " +:+ name +:+ " is not a valid scorer.")).
Proof. intros Himp. unfold get_scorer_cls. rewrite Himp. reflexivity. Qed.

End Resolution.

(** C4: a dotted name [ns.seg] is looked up in the module [scorers.ns.seg]
    (the namespace path under the fixed scorers root, then the final
    segment), and the class taken from it is the one named by the
    capitalized-concatenated form of the snake_case segment [seg]. *)
Theorem get_scorer_cls_naming_convention
    (import : string -> outcome pymodule) (ns seg : string)
    (m : pymodule) (obj : pyobj) :
  PyStr.contains "." seg = false ->
  PyStr.no_upper seg = true ->
  import ("scorers." +:+ ns +:+ "." +:+ seg) = Ok m ->
  declares_base_marker m = false ->
  m !! capitalized_concatenated seg = Some obj ->
  get_scorer_cls import (ns +:+ "." +:+ seg) = Ok obj.
Proof.
  intros Hdot Hup Himp Hbase Hobj.
  rewrite (get_scorer_cls_imported import _ m Himp), Hbase.
  rewrite (scorer_clsname_snake ns seg Hdot Hup), Hobj. reflexivity.
Qed.

(** The name caprasingh07.js_divergence resolves to the class JsDivergence of
    the module scorers.caprasingh07.js_divergence. *)
Lemma get_scorer_cls_js_divergence :
  capitalized_concatenated "js_divergence" = "JsDivergence" /\
  get_scorer_cls Example.import "caprasingh07.js_divergence"
    = Ok (PClass Example.JsDivergence) /\
  cls_module Example.JsDivergence = "scorers.caprasingh07.js_divergence" /\
  cls_name Example.JsDivergence = "JsDivergence".
Proof.
  split; [reflexivity|]. split; [|split; reflexivity].
  apply (get_scorer_cls_naming_convention Example.import
           "caprasingh07" "js_divergence" Example.js_divergence_module).
  - reflexivity.
  - reflexivity.
  - reflexivity.
  - reflexivity.
  - vm_compute. reflexivity.
Defined.

(** C1, as the code has it: when the imported module binds IS_BASE_SCORER to
    a true value, [get_scorer_cls] returns None; it neither raises nor
    returns a class of the module. *)
Theorem get_scorer_cls_base_marker
    (import : string -> outcome pymodule) (name : string) (m : pymodule) :
  import ("scorers." +:+ name) = Ok m ->
  declares_base_marker m = true ->
  get_scorer_cls import name = Ok PNone.
Proof.
  intros Himp Hbase.
  rewrite (get_scorer_cls_imported import _ m Himp), Hbase. reflexivity.
Qed.

Lemma get_scorer_cls_base_marker_windowed :
  get_scorer_cls Example.import "windowed" = Ok PNone.
Proof.
  apply (get_scorer_cls_base_marker Example.import "windowed" Example.windowed_module).
  - reflexivity.
  - vm_compute. reflexivity.
Defined.

(** For the marked module scorers.windowed the lookup raises nothing: it
    returns None. *)
Lemma base_marker_raises_nothing :
  Example.import "scorers.windowed" = Ok Example.windowed_module /\
  declares_base_marker Example.windowed_module = true /\
  forall e, get_scorer_cls Example.import "windowed" <> Raise e.
Proof.
  split; [reflexivity|]. split; [vm_compute; reflexivity|].
  intros e. vm_compute. discriminate.
Qed.

(** C5, as the code has it: when the module cannot be imported, or it is
    imported, is not marked as a base and lacks the derived class name,
    [get_scorer_cls] raises an ImportError whose message is the underlying
    exception's message followed by the name and "is not a valid scorer". *)
Theorem get_scorer_cls_invalid_name
    (import : string -> outcome pymodule) (name cause : string) :
  lookup_failure import name cause ->
  get_scorer_cls import name =
    Raise (ImportError (cause +:+ ": " +:+ name +:+ " is not a valid scorer.")).
Proof.
  intros [msg Himp | m Himp Hbase Hcls].
  - apply get_scorer_cls_import_error, Himp.
  - rewrite (get_scorer_cls_imported import _ m Himp), Hbase, Hcls. reflexivity.
Qed.

Lemma get_scorer_cls_invalid_name_unknown :
  get_scorer_cls Example.import "caprasingh07.shannon_entropy" =
    Raise (ImportError
      "No module named scorers.caprasingh07.shannon_entropy: caprasingh07.shannon_entropy is not a valid scorer.").
Proof.
  apply (get_scorer_cls_invalid_name Example.import "caprasingh07.shannon_entropy"
           "No module named scorers.caprasingh07.shannon_entropy").
  apply module_not_found. reflexivity.
Defined.

(** The marked module scorers.base has no attribute Base, and yet the lookup
    of the name base raises nothing. *)
Lemma class_absent_raises_nothing :
  Example.import "scorers.base" = Ok Example.base_module /\
  Example.base_module !! scorer_clsname "base" = None /\
  forall e, get_scorer_cls Example.import "base" <> Raise e.
Proof.
  split; [reflexivity|]. split; [vm_compute; reflexivity|].
  intros e. vm_compute. discriminate.
Qed.

(** ** Construction *)

(** What the inherited descriptors make of a supplied or defaulted value. *)
Lemma resolve_window_size `{Builtins} params v :
  WithParams.resolve Scorer.window_size_def params = Ok v ->
  exists w, v = VInt w /\ 0 <= w.
Proof.
  unfold WithParams.resolve. cbn.
  destruct (params !! "window_size") as [raw|].
  - destruct (coerce TInt raw) as [z|]; [|discriminate].
    destruct (z >=? 0) eqn:Hz; [|discriminate].
    intros [= <-]. exists z. split; [reflexivity|]. apply Z.geb_le in Hz. lia.
  - intros [= <-]. exists 2. split; [reflexivity | lia].
Qed.

Lemma resolve_window_lambda `{Builtins} params v :
  WithParams.resolve Scorer.window_lambda_def params = Ok v ->
  exists lam, v = VFloat lam.
Proof.
  unfold WithParams.resolve. cbn.
  destruct (params !! "window_lambda") as [raw|].
  - destruct (coerce TFloat raw) as [x|]; [|discriminate].
    destruct (_ && _); [|discriminate]. intros [= <-]. eauto.
  - intros [= <-]. eauto.
Qed.

Lemma resolve_normalize `{Builtins} params v :
  WithParams.resolve Scorer.normalize_def params = Ok v ->
  exists nz, v = VBool nz.
Proof.
  unfold WithParams.resolve. cbn.
  destruct (params !! "normalize") as [raw|].
  - destruct (coerce TBool raw) as [x|]; [|discriminate]. intros [= <-]. eauto.
  - intros [= <-]. eauto.
Qed.

(** A constructed scorer whose class does not redeclare the inherited
    parameters holds an integer window size that is not negative, a float
    weight and a boolean switch. *)
Lemma constructed_configured `{Builtins} c params self :
  Scorer.new c params = Ok self ->
  (forall d, d ∈ Scorer.params -> pd_name d ∉ Params.names (cls_own_params c)) ->
  exists w lam nz, configured self w lam nz /\ 0 <= w.
Proof.
  intros Hnew Hown. apply Scorer_init_inv in Hnew as (s & Hi & ->).
  cbn [inst_cls] in Hi.
  assert (Hread : forall d, d ∈ Scorer.params -> pd_name d <> "name" ->
            exists v, WithParams.resolve d params = Ok v /\
                      inst_dict (setattr_inst s "name"
                        (VStr (Scorer.module_name (inst_cls s)))) !! pd_name d = Some v).
  { intros d Hd Hname.
    destruct (install_lookup _ _ _ _ d (class_params_NoDup c) Hi) as (v & Hr & Hv).
    - apply extend_keeps; auto.
    - exists v. split; [exact Hr|]. simpl. rewrite lookup_insert_ne; [exact Hv | congruence]. }
  destruct (Hread Scorer.window_size_def) as (v1 & Hr1 & Hv1);
    [apply list_elem_of_here | discriminate |].
  destruct (Hread Scorer.window_lambda_def) as (v2 & Hr2 & Hv2);
    [apply list_elem_of_further, list_elem_of_here | discriminate |].
  destruct (Hread Scorer.normalize_def) as (v3 & Hr3 & Hv3);
    [do 2 apply list_elem_of_further; apply list_elem_of_here | discriminate |].
  apply resolve_window_size in Hr1 as (w & -> & Hw).
  apply resolve_window_lambda in Hr2 as (lam & ->).
  apply resolve_normalize in Hr3 as (nz & ->).
  exists w, lam, nz. split; [|exact Hw]. repeat split; assumption.
Qed.



(** C8: when an override's value, coerced to its descriptor's type, is one
    the descriptor's validator rejects, construction raises a parameter error
    and returns no instance. *)
Theorem construction_rejects_invalid_value `{Builtins}
    (c : pyclass) (params : gmap string pyval) (d : ParamDef) (raw : pyval)
    (v : denote (pd_type d)) :
  d ∈ Scorer.class_params c ->
  params !! pd_name d = Some raw ->
  coerce (pd_type d) raw = Some v ->
  accepts d v = false ->
  exists kind p, Scorer.new c params = Raise (ParamError kind p).
Proof.
  intros Hd Hraw Hco Hacc.
  pose proof (resolve_rejected d params raw v Hraw Hco Hacc) as Hr.
  destruct (Scorer.new c params) as [self|e] eqn:Hnew.
  - apply Scorer_init_inv in Hnew as (s & Hi & _). cbn [inst_cls] in Hi.
    destruct (install_raises _ params {| inst_cls := c; inst_dict := ∅ |} d _ Hd Hr)
      as [e' He']. congruence.
  - apply Scorer_init_error in Hnew as (kind & p & ->). eauto.
Qed.

(** window_size = -1 is rejected by the validator x >= 0. *)
Lemma construction_rejects_negative_window_size :
  exists kind p,
    @Scorer.new Example.builtins Example.JsDivergence {[ "window_size" := VInt (-1) ]}
      = Raise (ParamError kind p).
Proof.
  apply (@construction_rejects_invalid_value Example.builtins Example.JsDivergence
           {[ "window_size" := VInt (-1) ]} Scorer.window_size_def (VInt (-1)) (-1)).
  - apply list_elem_of_here.
  - vm_compute. reflexivity.
  - reflexivity.
  - reflexivity.
Defined.

(** C10: when [Scorer.__init__] completes, the instance's name attribute is
    its class's module path without the first dotted component, whatever the
    overrides were. *)
Theorem init_sets_name `{Builtins}
    (self self' : instance) (params : gmap string pyval) :
  Scorer.__init__ self params = Ok self' ->
  inst_cls self' = inst_cls self /\
  getattr_inst self' "name" = Ok (VStr (Scorer.module_name (inst_cls self))) /\
  forall root rest,
    PyStr.contains "." root = false ->
    cls_module (inst_cls self) = root +:+ "." +:+ rest ->
    getattr_inst self' "name" = Ok (VStr rest).
Proof.
  intros Hi. apply Scorer_init_inv in Hi as (s & Hs & ->).
  apply install_cls in Hs.
  assert (Hname : getattr_inst
            (setattr_inst s "name" (VStr (Scorer.module_name (inst_cls s)))) "name"
            = Ok (VStr (Scorer.module_name (inst_cls self)))).
  { unfold getattr_inst. simpl. rewrite lookup_insert_eq, Hs. reflexivity. }
  split; [exact Hs|]. split; [exact Hname|].
  intros root rest Hroot Hmod. rewrite Hname. do 2 f_equal.
  unfold Scorer.module_name. rewrite Hmod.
  apply (join_drop_first "." root rest Hroot).
Qed.

Lemma init_sets_name_js_divergence :
  exists self',
    @Scorer.new Example.builtins Example.JsDivergence {[ "normalize" := VBool true ]}
      = Ok self' /\
    getattr_inst self' "name" = Ok (VStr "caprasingh07.js_divergence").
Proof.
  eexists. split; [vm_compute; reflexivity|].
  refine (proj2 (proj2 (@init_sets_name Example.builtins
           {| inst_cls := Example.JsDivergence; inst_dict := ∅ |} _
           {[ "normalize" := VBool true ]} _))
         "scorers" "caprasingh07.js_divergence" _ _).
  - vm_compute. reflexivity.
  - reflexivity.
  - reflexivity.
Defined.

(** ** Fetching a configured scorer *)

Lemma get_scorer_resolved `{Builtins} import name params c :
  get_scorer_cls import name = Ok (PClass c) ->
  get_scorer import name params = Scorer.new c params.
Proof.
  intros Hcls. unfold get_scorer. rewrite Hcls, bind_Ok. cbn [call].
  destruct (Scorer.new c params); reflexivity.
Qed.

(** C2, as the code has it: when the name resolves to a class and
    constructing it fails, [get_scorer] raises that very construction error,
    not wrapped. *)
Theorem get_scorer_construction_error `{Builtins}
    (import : string -> outcome pymodule) (name : string)
    (params : gmap string pyval) (c : pyclass) (e : exn) :
  get_scorer_cls import name = Ok (PClass c) ->
  Scorer.new c params = Raise e ->
  get_scorer import name params = Raise e.
Proof.
  intros Hcls Hnew. rewrite (get_scorer_resolved _ _ _ _ Hcls). exact Hnew.
Qed.

Lemma get_scorer_construction_error_lambda :
  @get_scorer Example.builtins Example.import "caprasingh07.js_divergence"
     {[ "window_lambda" := VFloat 1.5 ]}
  = Raise (ParamError InvalidValue "window_lambda").
Proof.
  apply (@get_scorer_construction_error Example.builtins Example.import
           "caprasingh07.js_divergence" _ Example.JsDivergence).
  - vm_compute. reflexivity.
  - vm_compute. reflexivity.
Defined.

(** With window_size = -1 the error that reaches the caller of [get_scorer]
    is the parameter error, not an ImportError saying "is not a valid
    scorer". *)
Lemma construction_error_not_wrapped :
  get_scorer_cls Example.import "caprasingh07.js_divergence"
    = Ok (PClass Example.JsDivergence) /\
  @get_scorer Example.builtins Example.import "caprasingh07.js_divergence"
     {[ "window_size" := VInt (-1) ]}
    = Raise (ParamError InvalidValue "window_size") /\
  forall msg,
    @get_scorer Example.builtins Example.import "caprasingh07.js_divergence"
       {[ "window_size" := VInt (-1) ]}
      <> Raise (ImportError msg).
Proof.
  split; [vm_compute; reflexivity|]. split; [vm_compute; reflexivity|].
  intros msg. vm_compute. discriminate.
Qed.

(** ** The transforms *)

Lemma window_length scores w lam :
  length (General.window scores w lam) = length scores.
Proof. apply length_imap. Qed.

Lemma neighbours_none scores i : General.neighbours scores i 0 = [].
Proof.
  unfold General.neighbours. rewrite Nat.sub_0_r, Nat.sub_diag. reflexivity.
Qed.

(** A window of no width leaves every score as it is, whatever the weight. *)
Lemma window_zero scores w lam : w <= 0 -> General.window scores w lam = scores.
Proof.
  intros Hw. unfold General.window.
  replace (Z.to_nat w) with 0%nat by lia.
  rewrite (imap_ext _ (const id)).
  - rewrite imap_const. apply list_fmap_id.
  - intros i x _. rewrite neighbours_none. reflexivity.
Qed.

Lemma z_scores_length scores filter :
  length (General.z_scores scores filter) = length scores.
Proof.
  unfold General.z_scores. destruct (PrimFloat.eqb _ _); apply length_fmap.
Qed.

(** ** The scoring pipeline *)

Section Pipeline.
Variable window_scores : list float -> pyval -> pyval -> outcome (list float).
Variable norm_scores : list float -> Z -> outcome (list float).

(** The pipeline on an instance whose three parameters are an integer, a
    float and a boolean. *)
Lemma score_configured self a w lam nz :
  configured self w lam nz ->
  Scorer.score window_scores norm_scores self a =
    (raw ← Scorer.call__score self a;
     windowed ← (if negb (w =? 0) then window_scores raw (VInt w) (VFloat lam)
                 else Ok raw);
     if nz then norm_scores windowed 5 else Ok windowed).
Proof.
  intros (Hw & Hlam & Hnz). unfold Scorer.score, getattr_inst.
  destruct (Scorer.call__score self a) as [raw|e]; [|reflexivity].
  rewrite !bind_Ok, Hw, bind_Ok. cbn [truthy].
  destruct (negb (w =? 0)).
  - rewrite Hlam, !bind_Ok.
    destruct (window_scores raw (VInt w) (VFloat lam)) as [ws|e]; [|reflexivity].
    rewrite !bind_Ok, Hnz, bind_Ok. cbn [truthy].
    destruct nz; [destruct (norm_scores ws 5)|]; reflexivity.
  - rewrite !bind_Ok, Hnz, bind_Ok. cbn [truthy].
    destruct nz; [destruct (norm_scores raw 5)|]; reflexivity.
Qed.

(** Without an override of [_score] nothing is scored. *)
Lemma score_without_override self a :
  cls__score (inst_cls self) = None ->
  Scorer.score window_scores norm_scores self a = Raise NotImplementedError.
Proof.
  intros Hnone. unfold Scorer.score, Scorer.call__score. rewrite Hnone.
  reflexivity.
Qed.

End Pipeline.




(** Raw scores 0..9 with window_size = 0 and normalize = False come out as
    they are. *)
Example score_identity :
  score (setattr_inst Example.scorer "window_size" (VInt 0)) Example.alignment =
    Ok [0; 1; 2; 3; 4; 5; 6; 7; 8; 9]%float.
Proof. vm_compute. reflexivity. Qed.

(** C6: with the transforms of conseval.utils.general, and a [_score] that
    returns one score per column of the reference sequence, [score] returns
    one score per column whatever window_size, window_lambda and normalize
    are; none for a reference sequence of length zero. *)
Theorem score_one_per_column
    (self : instance) (a : Alignment) (w : Z) (lam : float) (nz : bool)
    (raw : list float) :
  configured self w lam nz ->
  Scorer.call__score self a = Ok raw ->
  length raw = columns a ->
  exists out, score self a = Ok out /\
              length out = columns a /\
              (columns a = 0%nat -> out = []).
Proof.
  intros Hcfg Hraw Hlen. unfold score.
  rewrite (score_configured _ _ _ _ _ _ _ Hcfg), Hraw, bind_Ok.
  unfold General.window_scores, General.norm_scores.
  assert (Hout : exists out,
            (windowed ← (if negb (w =? 0) then Ok (General.window raw w lam)
                         else Ok raw);
             if nz then Ok (General.z_scores windowed 5) else Ok windowed) = Ok out /\
            length out = columns a).
  { destruct (negb (w =? 0)); rewrite bind_Ok; destruct nz; eexists;
      (split; [reflexivity|]);
      rewrite ?z_scores_length, ?window_length; exact Hlen. }
  destruct Hout as (out & Hout & Hlen'). exists out.
  split; [exact Hout|]. split; [exact Hlen'|].
  intros H0. apply nil_length_inv. lia.
Qed.

Lemma score_one_per_column_example :
  exists out,
    score (setattr_inst Example.scorer "normalize" (VBool true)) Example.alignment
      = Ok out /\
    length out = 10%nat /\
    (columns Example.alignment = 0%nat -> out = []).
Proof.
  apply (score_one_per_column
           (setattr_inst Example.scorer "normalize" (VBool true)) Example.alignment
           1 0.5%float true (General.float_of_nat <$> seq 0 10)).
  - repeat split; vm_compute; reflexivity.
  - vm_compute. reflexivity.
  - vm_compute. reflexivity.
Defined.

(** C9: on the base class itself, whatever the instance's attributes and the
    alignment, [_score] raises NotImplementedError, and so does [score]: the
    error reaches the caller and no transform is applied. *)
Theorem base_score_not_implemented
    (window_scores : list float -> pyval -> pyval -> outcome (list float))
    (norm_scores : list float -> Z -> outcome (list float))
    (dict : gmap string pyval) (a : Alignment) :
  let self := {| inst_cls := Scorer.cls; inst_dict := dict |} in
  Scorer._score self a = Raise NotImplementedError /\
  Scorer.call__score self a = Raise NotImplementedError /\
  Scorer.score window_scores norm_scores self a = Raise NotImplementedError.
Proof.
  intros self. split; [reflexivity|]. split; [reflexivity|].
  apply score_without_override. reflexivity.
Qed.

(** * Further properties of the code *)

(** ** Errors of the lookup *)

(** Where an error of [get_scorer_cls] comes from: it is the rewritten
    ImportError, or an exception of another class that the import raised. *)
Lemma get_scorer_cls_raise_inv import name e :
  get_scorer_cls import name = Raise e ->
  (exists cause,
     e = ImportError (cause +:+ ": " +:+ name +:+ " is not a valid scorer.")) \/
  (import ("scorers." +:+ name) = Raise e /\ import_or_attribute_error e = false).
Proof.
  destruct (import ("scorers." +:+ name)) as [m|e0] eqn:Himp.
  - rewrite (get_scorer_cls_imported import name m Himp).
    destruct (declares_base_marker m); [discriminate|].
    destruct (m !! scorer_clsname name); [discriminate|].
    intros [= <-]. left. eauto.
  - unfold get_scorer_cls. rewrite Himp, bind_Raise. cbn [try_except].
    destruct (import_or_attribute_error e0) eqn:Hcatch.
    + intros [= <-]. left. eauto.
    + intros [= <-]. right. split; [reflexivity | exact Hcatch].
Qed.

(** X1: an exception raised by the import that is neither an ImportError nor
    an AttributeError leaves [get_scorer_cls] as it is. *)
Theorem get_scorer_cls_foreign_error
    (import : string -> outcome pymodule) (name : string) (e : exn) :
  import ("scorers." +:+ name) = Raise e ->
  import_or_attribute_error e = false ->
  get_scorer_cls import name = Raise e.
Proof.
  intros Himp Hcatch. unfold get_scorer_cls.
  rewrite Himp, bind_Raise. cbn [try_except]. rewrite Hcatch. reflexivity.
Qed.

Lemma get_scorer_cls_foreign_error_example :
  get_scorer_cls (fun _ => Raise (TypeError "unsupported operand")) "caprasingh07.js_divergence"
    = Raise (TypeError "unsupported operand").
Proof.
  apply (get_scorer_cls_foreign_error
           (fun _ => Raise (TypeError "unsupported operand"))
           "caprasingh07.js_divergence" (TypeError "unsupported operand")).
  - reflexivity.
  - reflexivity.
Defined.

(** X2: every error of [get_scorer_cls] is either an ImportError whose
    message ends in the name and "is not a valid scorer.", or an exception
    of another class raised by the import; it is never an AttributeError. *)
Theorem get_scorer_cls_errors
    (import : string -> outcome pymodule) (name : string) (e : exn) :
  get_scorer_cls import name = Raise e ->
  ((exists cause,
      e = ImportError (cause +:+ ": " +:+ name +:+ " is not a valid scorer.")) \/
   (import ("scorers." +:+ name) = Raise e /\ import_or_attribute_error e = false)) /\
  forall msg, e <> AttributeError msg.
Proof.
  intros Hr. pose proof (get_scorer_cls_raise_inv import name e Hr) as Hinv.
  split; [exact Hinv|]. intros msg ->.
  destruct Hinv as [[cause Hc]|[_ Hc]]; discriminate.
Qed.

Lemma get_scorer_cls_errors_attribute :
  ((exists cause,
      ImportError "'module' object has no attribute 'Scorer': scorer is not a valid scorer."
      = ImportError (cause +:+ ": " +:+ "scorer" +:+ " is not a valid scorer.")) \/
   ((fun _ : string => Ok (∅ : pymodule)) ("scorers." +:+ "scorer")
      = Raise (ImportError
          "'module' object has no attribute 'Scorer': scorer is not a valid scorer.") /\
    import_or_attribute_error (ImportError
          "'module' object has no attribute 'Scorer': scorer is not a valid scorer.")
      = false)) /\
  forall msg,
    ImportError "'module' object has no attribute 'Scorer': scorer is not a valid scorer."
    <> AttributeError msg.
Proof.
  apply (get_scorer_cls_errors (fun _ => Ok ∅) "scorer").
  vm_compute. reflexivity.
Defined.

(** ** Fetching: what the caller of get_scorer sees *)

(** X3: for a name whose module carries the base marker, [get_scorer]
    raises the TypeError of calling None, whatever the overrides. *)
Theorem get_scorer_base_marker `{Builtins}
    (import : string -> outcome pymodule) (name : string) (m : pymodule)
    (params : gmap string pyval) :
  import ("scorers." +:+ name) = Ok m ->
  declares_base_marker m = true ->
  get_scorer import name params = Raise (TypeError "'NoneType' object is not callable").
Proof.
  intros Himp Hbase. unfold get_scorer.
  rewrite (get_scorer_cls_imported import name m Himp), Hbase. reflexivity.
Qed.

Lemma get_scorer_base_marker_example :
  @get_scorer Example.builtins Example.import "base" {[ "window_size" := VInt 3 ]}
    = Raise (TypeError "'NoneType' object is not callable").
Proof.
  apply (@get_scorer_base_marker Example.builtins Example.import "base"
           Example.base_module).
  - reflexivity.
  - vm_compute. reflexivity.
Defined.

(** X4: every error of [get_scorer] is the rewritten ImportError of the
    lookup, an exception of another class raised by the import, the TypeError
    of calling something that is not a class, or a parameter error of the
    construction. *)
Theorem get_scorer_errors `{Builtins}
    (import : string -> outcome pymodule) (name : string)
    (params : gmap string pyval) (e : exn) :
  get_scorer import name params = Raise e ->
  (exists cause,
     e = ImportError (cause +:+ ": " +:+ name +:+ " is not a valid scorer.")) \/
  (import ("scorers." +:+ name) = Raise e /\ import_or_attribute_error e = false) \/
  (exists msg, e = TypeError msg) \/
  (exists kind p, e = ParamError kind p).
Proof.
  unfold get_scorer.
  destruct (get_scorer_cls import name) as [obj|e0] eqn:Hcls.
  - rewrite bind_Ok. destruct obj as [v|c]; cbn [call].
    + destruct v; rewrite bind_Raise; intros [= <-]; right; right; left; eauto.
    + destruct (Scorer.new c params) as [s|e1] eqn:Hnew.
      * rewrite bind_Ok. discriminate.
      * rewrite bind_Raise. intros [= <-]. right; right; right.
        eapply Scorer_init_error, Hnew.
  - rewrite bind_Raise. intros [= <-].
    destruct (get_scorer_cls_raise_inv import name e0 Hcls) as [Hc|Hc]; tauto.
Qed.

Lemma get_scorer_errors_example :
  (exists cause,
     ParamError UnknownParameter "windowsize"
     = ImportError (cause +:+ ": " +:+ "caprasingh07.js_divergence"
                    +:+ " is not a valid scorer.")) \/
  (Example.import ("scorers." +:+ "caprasingh07.js_divergence")
     = Raise (ParamError UnknownParameter "windowsize") /\
   import_or_attribute_error (ParamError UnknownParameter "windowsize") = false) \/
  (exists msg, ParamError UnknownParameter "windowsize" = TypeError msg) \/
  (exists kind p, ParamError UnknownParameter "windowsize" = ParamError kind p).
Proof.
  apply (@get_scorer_errors Example.builtins Example.import
           "caprasingh07.js_divergence" {[ "windowsize" := VInt 1 ]}).
  vm_compute. reflexivity.
Defined.

(** X5: when the class found under a name is defined in the module of that
    name, the scorer [get_scorer] returns is an instance of that class and
    its name attribute is the name it was asked for. *)
Theorem get_scorer_name_round_trip `{Builtins}
    (import : string -> outcome pymodule) (name : string)
    (params : gmap string pyval) (c : pyclass) (scorer : instance) :
  get_scorer_cls import name = Ok (PClass c) ->
  cls_module c = "scorers." +:+ name ->
  get_scorer import name params = Ok scorer ->
  inst_cls scorer = c /\ getattr_inst scorer "name" = Ok (VStr name).
Proof.
  intros Hcls Hmod Hget. rewrite (get_scorer_resolved _ _ _ _ Hcls) in Hget.
  apply Scorer_init_inv in Hget as (s & Hs & ->).
  apply install_cls in Hs. cbn [inst_cls] in Hs.
  split; [exact Hs|].
  unfold getattr_inst. simpl. rewrite lookup_insert_eq, Hs.
  do 2 f_equal. unfold Scorer.module_name. rewrite Hmod.
  apply (join_drop_first "." "scorers" name). reflexivity.
Qed.

Lemma get_scorer_name_round_trip_example :
  exists scorer,
    @get_scorer Example.builtins Example.import "caprasingh07.js_divergence"
       {[ "window_size" := VInt 3 ]} = Ok scorer /\
    inst_cls scorer = Example.JsDivergence /\
    getattr_inst scorer "name" = Ok (VStr "caprasingh07.js_divergence").
Proof.
  eexists. split; [vm_compute; reflexivity|].
  refine (@get_scorer_name_round_trip Example.builtins Example.import
            "caprasingh07.js_divergence" {[ "window_size" := VInt 3 ]}
            Example.JsDivergence _ _ _ _).
  - vm_compute. reflexivity.
  - reflexivity.
  - vm_compute. reflexivity.
Defined.

(** X6: a class whose module path has no dot gets the empty string as its
    name. *)
Theorem init_name_without_package `{Builtins}
    (self self' : instance) (params : gmap string pyval) :
  Scorer.__init__ self params = Ok self' ->
  PyStr.contains "." (cls_module (inst_cls self)) = false ->
  getattr_inst self' "name" = Ok (VStr "").
Proof.
  intros Hi Hdot. apply Scorer_init_inv in Hi as (s & Hs & ->).
  apply install_cls in Hs.
  unfold getattr_inst. simpl. rewrite lookup_insert_eq, Hs.
  unfold Scorer.module_name. rewrite (split_no_sep "." _ Hdot). reflexivity.
Qed.

Lemma init_name_without_package_main :
  exists self',
    @Scorer.__init__ Example.builtins
       {| inst_cls := {| cls_module := "__main__"; cls_name := "Mine";
                         cls_own_params := []; cls__score := None |};
          inst_dict := ∅ |} ∅ = Ok self' /\
    getattr_inst self' "name" = Ok (VStr "").
Proof.
  eexists. split; [vm_compute; reflexivity|].
  refine (@init_name_without_package Example.builtins
            {| inst_cls := {| cls_module := "__main__"; cls_name := "Mine";
                              cls_own_params := []; cls__score := None |};
               inst_dict := ∅ |} _ ∅ _ _).
  - vm_compute. reflexivity.
  - reflexivity.
Defined.

(** ** More on the scoring pipeline *)

(** X7: [score] raises nothing of its own but the AttributeError of a
    missing attribute: any other error is the one [_score], [window_scores]
    or [norm_scores] (at filter 5) raised. *)
Theorem score_errors
    (window_scores : list float -> pyval -> pyval -> outcome (list float))
    (norm_scores : list float -> Z -> outcome (list float))
    (self : instance) (a : Alignment) (e : exn) :
  Scorer.score window_scores norm_scores self a = Raise e ->
  Scorer.call__score self a = Raise e \/
  (exists msg, e = AttributeError msg) \/
  (exists raw v l, window_scores raw v l = Raise e) \/
  (exists scores, norm_scores scores 5 = Raise e).
Proof.
  unfold Scorer.score, getattr_inst.
  destruct (Scorer.call__score self a) as [raw|e0]; [|intros [= <-]; tauto].
  rewrite bind_Ok.
  destruct (inst_dict self !! "window_size") as [ws|];
    [|intros [= <-]; right; left; eauto].
  rewrite bind_Ok.
  assert (Hnorm : forall scores,
            (normalize ← match inst_dict self !! "normalize" with
                         | Some v => Ok v
                         | None => Raise (AttributeError
                             ("'" +:+ cls_name (inst_cls self)
                              +:+ "' object has no attribute '" +:+ "normalize" +:+ "'"))
                         end;
             scores ← (if truthy normalize then norm_scores scores 5
                       else mret scores);
             mret scores) = Raise e ->
            (exists msg, e = AttributeError msg) \/
            (exists scores, norm_scores scores 5 = Raise e)).
  { intros scores. destruct (inst_dict self !! "normalize") as [nz|];
      [|intros [= <-]; left; eauto].
    rewrite bind_Ok. destruct (truthy nz); [|discriminate].
    destruct (norm_scores scores 5) as [out|e1] eqn:Hn; [discriminate|].
    intros [= <-]. right. eauto. }
  destruct (truthy ws).
  - rewrite bind_Ok.
    destruct (inst_dict self !! "window_lambda") as [wl|];
      [|intros [= <-]; right; left; eauto].
    rewrite bind_Ok.
    destruct (window_scores raw ws wl) as [windowed|e1] eqn:Hw.
    + rewrite bind_Ok. intros Hr. destruct (Hnorm _ Hr); tauto.
    + intros [= <-]. right; right; left. eauto.
  - rewrite bind_Ok. intros Hr. destruct (Hnorm _ Hr); tauto.
Qed.

Lemma score_errors_base :
  Scorer.call__score {| inst_cls := Example.BaseScorer; inst_dict := ∅ |}
    Example.alignment = Raise NotImplementedError \/
  (exists msg, NotImplementedError = AttributeError msg) \/
  (exists raw v l, General.window_scores raw v l = Raise NotImplementedError) \/
  (exists scores, General.norm_scores scores 5 = Raise NotImplementedError).
Proof.
  apply (score_errors General.window_scores General.norm_scores
           {| inst_cls := Example.BaseScorer; inst_dict := ∅ |} Example.alignment).
  reflexivity.
Defined.

(** X8: the windowing step runs for every window size other than zero, a
    negative one included: [score] tests the truth of window_size, not its
    sign. *)
Theorem score_windows_when_nonzero
    (window_scores : list float -> pyval -> pyval -> outcome (list float))
    (norm_scores : list float -> Z -> outcome (list float))
    (self : instance) (a : Alignment) (w : Z) (lam : float) (nz : bool) :
  configured self w lam nz ->
  w <> 0 ->
  Scorer.score window_scores norm_scores self a =
    (raw ← Scorer.call__score self a;
     windowed ← window_scores raw (VInt w) (VFloat lam);
     if nz then norm_scores windowed 5 else Ok windowed).
Proof.
  intros Hcfg Hw. rewrite (score_configured _ _ _ _ _ _ _ Hcfg).
  destruct (Z.eqb_spec w 0) as [|_]; [contradiction | reflexivity].
Qed.

Lemma score_windows_when_negative :
  Scorer.score (fun raw _ _ => Ok (rev raw)) General.norm_scores
    (setattr_inst Example.scorer "window_size" (VInt (-1))) Example.alignment
  = Ok [9; 8; 7; 6; 5; 4; 3; 2; 1; 0]%float.
Proof.
  etransitivity.
  - apply (score_windows_when_nonzero (fun raw _ _ => Ok (rev raw)) General.norm_scores
             (setattr_inst Example.scorer "window_size" (VInt (-1)))
             Example.alignment (-1) 0.5%float false).
    + repeat split; vm_compute; reflexivity.
    + lia.
  - vm_compute. reflexivity.
Defined.

(** X9: window_lambda is read only when the window size is not zero.  On an
    instance without that attribute, a window size of zero scores as usual
    and any other raises the AttributeError of the missing attribute. *)
Theorem score_without_window_lambda
    (window_scores : list float -> pyval -> pyval -> outcome (list float))
    (norm_scores : list float -> Z -> outcome (list float))
    (self : instance) (a : Alignment) (raw : list float) (w : Z) (nz : bool) :
  inst_dict self !! "window_lambda" = None ->
  inst_dict self !! "window_size" = Some (VInt w) ->
  inst_dict self !! "normalize" = Some (VBool nz) ->
  Scorer.call__score self a = Ok raw ->
  Scorer.score window_scores norm_scores self a =
    if w =? 0 then (if nz then norm_scores raw 5 else Ok raw)
    else Raise (AttributeError ("'" +:+ cls_name (inst_cls self)
                                +:+ "' object has no attribute 'window_lambda'")).
Proof.
  intros Hlam Hw Hnz Hraw. unfold Scorer.score, getattr_inst.
  rewrite Hraw, bind_Ok, Hw, bind_Ok. cbn [truthy].
  destruct (w =? 0); cbn [negb].
  - rewrite bind_Ok, Hnz, bind_Ok. cbn [truthy].
    destruct nz; [destruct (norm_scores raw 5)|]; reflexivity.
  - rewrite bind_Ok, Hlam. reflexivity.
Qed.

Lemma score_without_window_lambda_example :
  Scorer.score General.window_scores General.norm_scores
    {| inst_cls := Example.JsDivergence;
       inst_dict := {[ "window_size" := VInt 0; "normalize" := VBool false ]} |}
    Example.alignment
  = Ok [0; 1; 2; 3; 4; 5; 6; 7; 8; 9]%float.
Proof.
  apply (score_without_window_lambda General.window_scores General.norm_scores
           {| inst_cls := Example.JsDivergence;
              inst_dict := {[ "window_size" := VInt 0; "normalize" := VBool false ]} |}
           Example.alignment [0; 1; 2; 3; 4; 5; 6; 7; 8; 9]%float 0 false).
  - vm_compute. reflexivity.
  - vm_compute. reflexivity.
  - vm_compute. reflexivity.
  - vm_compute. reflexivity.
Defined.

(** X10: when [window_scores] and [norm_scores] return as many scores as
    they are given, whatever [score] returns is as long as what [_score]
    returned, on any instance. *)
Theorem score_keeps_length
    (window_scores : list float -> pyval -> pyval -> outcome (list float))
    (norm_scores : list float -> Z -> outcome (list float))
    (self : instance) (a : Alignment) (raw out : list float) :
  (forall scores v l windowed,
     window_scores scores v l = Ok windowed -> length windowed = length scores) ->
  (forall scores k normed,
     norm_scores scores k = Ok normed -> length normed = length scores) ->
  Scorer.call__score self a = Ok raw ->
  Scorer.score window_scores norm_scores self a = Ok out ->
  length out = length raw.
Proof.
  intros Hwin Hnorm Hraw. unfold Scorer.score. rewrite Hraw, bind_Ok.
  intros Hs. apply bind_Ok_inv in Hs as (ws & _ & Hs).
  apply bind_Ok_inv in Hs as (windowed & Hwd & Hs).
  apply bind_Ok_inv in Hs as (nz & _ & Hs).
  apply bind_Ok_inv in Hs as (normed & Hnd & Hs).
  injection Hs as <-.
  assert (Hlw : length windowed = length raw).
  { destruct (truthy ws).
    - apply bind_Ok_inv in Hwd as (ws' & _ & Hwd).
      apply bind_Ok_inv in Hwd as (wl & _ & Hwd).
      apply (Hwin _ _ _ _ Hwd).
    - injection Hwd as <-. reflexivity. }
  rewrite <- Hlw. destruct (truthy nz).
  - apply (Hnorm _ _ _ Hnd).
  - injection Hnd as <-. reflexivity.
Qed.

Lemma score_keeps_length_example :
  length [0.5; 1; 2; 3; 4; 5; 6; 7; 8; 8.5]%float
  = length (General.float_of_nat <$> seq 0 10).
Proof.
  apply (score_keeps_length General.window_scores General.norm_scores
           Example.scorer Example.alignment).
  - intros scores v l windowed. unfold General.window_scores.
    destruct v; try discriminate. destruct l; try discriminate.
    intros [= <-]. apply window_length.
  - intros scores k normed [= <-]. apply z_scores_length.
  - vm_compute. reflexivity.
  - vm_compute. reflexivity.
Defined.

(** ** Output settings *)

(** X11: [set_output_id] and [set_output_dir] each bind their own attribute
    and nothing else: both values read back, in either order of the two
    calls the instance is the same, and its class and every other attribute
    are as before. *)
Theorem set_output_read_back (self : instance) (output_id out_dir : pyval) :
  let self' := Scorer.set_output_dir (Scorer.set_output_id self output_id) out_dir in
  getattr_inst self' "output_id" = Ok output_id /\
  getattr_inst self' "output_dir" = Ok out_dir /\
  self' = Scorer.set_output_id (Scorer.set_output_dir self out_dir) output_id /\
  inst_cls self' = inst_cls self /\
  forall n, n <> "output_id" -> n <> "output_dir" ->
            getattr_inst self' n = getattr_inst self n.
Proof.
  intros self'. unfold self', Scorer.set_output_dir, Scorer.set_output_id,
    setattr_inst, getattr_inst. cbn [inst_dict inst_cls].
  split; [|split; [|split; [|split]]].
  - rewrite lookup_insert_ne by discriminate. rewrite lookup_insert_eq. reflexivity.
  - rewrite lookup_insert_eq. reflexivity.
  - f_equal. apply insert_insert_ne. discriminate.
  - reflexivity.
  - intros n Hid Hdir. rewrite !lookup_insert_ne by congruence. reflexivity.
Qed.

(** The names a merged schema declares are those of its two parts. *)
Lemma extend_names_elem n base own :
  n ∈ Params.names (Params.extend base own) ->
  n ∈ Params.names base \/ n ∈ Params.names own.
Proof.
  revert base. induction own as [|d own IH]; intros base; [auto|].
  rewrite extend_cons, names_cons, elem_of_cons. intros Hin.
  apply IH in Hin as [Hin|Hin]; [|auto].
  apply override_names_elem in Hin as [->|Hin]; auto.
Qed.

(** X12: construction binds neither output attribute.  Unless the class
    declares a parameter of that name, reading output_id or output_dir on a
    fresh scorer raises AttributeError. *)
Theorem output_unset_after_construction `{Builtins}
    (c : pyclass) (params : gmap string pyval) (self : instance) (n : string) :
  Scorer.new c params = Ok self ->
  n = "output_id" \/ n = "output_dir" ->
  n ∉ Params.names (cls_own_params c) ->
  getattr_inst self n =
    Raise (AttributeError ("'" +:+ cls_name c +:+ "' object has no attribute '"
                           +:+ n +:+ "'")).
Proof.
  intros Hnew Hn Hown. apply Scorer_init_inv in Hnew as (s & Hs & ->).
  cbn [inst_cls] in Hs. pose proof (install_cls _ _ _ _ Hs) as Hcls.
  cbn [inst_cls] in Hcls.
  assert (Hschema : n ∉ Params.names (Scorer.class_params c)).
  { intros Hin. apply extend_names_elem in Hin as [Hin|Hin]; [|contradiction].
    change (n ∈ ["window_size"; "window_lambda"; "normalize"]) in Hin.
    rewrite !elem_of_cons in Hin.
    destruct Hn as [-> | ->]; destruct Hin as [Hin|[Hin|[Hin|Hin]]];
      try discriminate; inversion Hin. }
  unfold getattr_inst. cbn [setattr_inst inst_dict inst_cls].
  rewrite lookup_insert_ne by (destruct Hn as [->| ->]; discriminate).
  rewrite (install_lookup_other _ _ _ _ _ Hs Hschema). cbn [inst_dict].
  rewrite lookup_empty, Hcls. reflexivity.
Qed.

Lemma output_unset_after_construction_example :
  exists self,
    @Scorer.new Example.builtins Example.JsDivergence ∅ = Ok self /\
    getattr_inst self "output_id" =
      Raise (AttributeError "'JsDivergence' object has no attribute 'output_id'").
Proof.
  eexists. split; [vm_compute; reflexivity|].
  refine (@output_unset_after_construction Example.builtins Example.JsDivergence ∅
            _ "output_id" _ _ _).
  - vm_compute. reflexivity.
  - left. reflexivity.
  - intros Hin. inversion Hin.
Defined.

(** ** What construction guarantees the pipeline *)

Lemma resolve_window_lambda_range `{Builtins} params v :
  WithParams.resolve Scorer.window_lambda_def params = Ok v ->
  exists lam, v = VFloat lam /\ PrimFloat.leb 0 lam && PrimFloat.leb lam 1 = true.
Proof.
  unfold WithParams.resolve. cbn.
  destruct (params !! "window_lambda") as [raw|].
  - destruct (coerce TFloat raw) as [x|]; [|discriminate].
    destruct (PrimFloat.leb 0 x && PrimFloat.leb x 1) eqn:Hx; [|discriminate].
    intros [= <-]. eauto.
  - intros [= <-]. exists 0.5%float. split; reflexivity.
Qed.

(** An inherited descriptor the class leaves alone is resolved and bound
    under its name. *)
Lemma constructed_reads `{Builtins} c params self d :
  Scorer.new c params = Ok self ->
  d ∈ Scorer.params ->
  pd_name d ∉ Params.names (cls_own_params c) ->
  exists v, WithParams.resolve d params = Ok v /\
            inst_dict self !! pd_name d = Some v.
Proof.
  intros Hnew Hd Hown. apply Scorer_init_inv in Hnew as (s & Hi & ->).
  cbn [inst_cls] in Hi.
  destruct (install_lookup _ _ _ _ d (class_params_NoDup c) Hi) as (v & Hr & Hv).
  - apply extend_keeps; assumption.
  - exists v. split; [exact Hr|]. cbn [setattr_inst inst_dict].
    rewrite lookup_insert_ne; [exact Hv|].
    change (d ∈ [Scorer.window_size_def; Scorer.window_lambda_def;
                 Scorer.normalize_def]) in Hd.
    rewrite !elem_of_cons in Hd.
    destruct Hd as [->|[->|[->|Hd]]]; try discriminate. inversion Hd.
Qed.

(** X20: a scorer constructed from a class that does not redeclare the
    inherited parameters holds, whatever the overrides were, an integer
    window_size that is not negative, a float window_lambda between 0 and 1
    and a boolean normalize. *)
Theorem constructed_parameters_valid `{Builtins}
    (c : pyclass) (params : gmap string pyval) (self : instance) :
  Scorer.new c params = Ok self ->
  (forall d, d ∈ Scorer.params -> pd_name d ∉ Params.names (cls_own_params c)) ->
  exists w lam nz,
    configured self w lam nz /\
    0 <= w /\
    PrimFloat.leb 0 lam && PrimFloat.leb lam 1 = true.
Proof.
  intros Hnew Hown.
  destruct (constructed_reads c params self Scorer.window_size_def Hnew)
    as (v1 & Hr1 & Hv1); [apply list_elem_of_here | apply Hown, list_elem_of_here |].
  destruct (constructed_reads c params self Scorer.window_lambda_def Hnew)
    as (v2 & Hr2 & Hv2);
    [apply list_elem_of_further, list_elem_of_here
    |apply Hown, list_elem_of_further, list_elem_of_here |].
  destruct (constructed_reads c params self Scorer.normalize_def Hnew)
    as (v3 & Hr3 & Hv3);
    [do 2 apply list_elem_of_further; apply list_elem_of_here
    |apply Hown; do 2 apply list_elem_of_further; apply list_elem_of_here |].
  apply resolve_window_size in Hr1 as (w & -> & Hw).
  apply resolve_window_lambda_range in Hr2 as (lam & -> & Hlam).
  apply resolve_normalize in Hr3 as (nz & ->).
  exists w, lam, nz. split; [repeat split; assumption|]. split; assumption.
Qed.

Lemma constructed_parameters_valid_example :
  exists self,
    @Scorer.new Example.builtins Example.JsDivergence
       {[ "window_lambda" := VFloat 0.25; "window_size" := VInt 0 ]} = Ok self /\
    exists w lam nz,
      configured self w lam nz /\
      0 <= w /\
      PrimFloat.leb 0 lam && PrimFloat.leb lam 1 = true.
Proof.
  eexists. split; [vm_compute; reflexivity|].
  refine (@constructed_parameters_valid Example.builtins Example.JsDivergence
            {[ "window_lambda" := VFloat 0.25; "window_size" := VInt 0 ]} _ _ _).
  - vm_compute. reflexivity.
  - intros d _ Hin. inversion Hin.
Defined.

(** ** The derived class name *)

Lemma contains_app c a b :
  PyStr.contains c (a +:+ b) = PyStr.contains c a || PyStr.contains c b.
Proof.
  induction a as [|x a IH]; simpl; [reflexivity|].
  rewrite IH. apply orb_assoc.
Qed.

(** The pieces of a split are free of whatever the string is free of, and of
    the separator. *)
Lemma split_pieces_absent sep c s :
  PyStr.contains c s = false ->
  Forall (fun p => PyStr.contains c p = false) (PyStr.split sep s).
Proof.
  induction s as [|x rest IH]; simpl; intros Hs.
  - repeat constructor.
  - apply orb_false_iff in Hs as [Hx Hrest]. specialize (IH Hrest).
    destruct (Ascii.eqb x sep).
    + constructor; [reflexivity | exact IH].
    + destruct (PyStr.split sep rest) as [|w ws].
      * repeat constructor. simpl. rewrite Hx. reflexivity.
      * inversion IH; subst. constructor; [|assumption].
        simpl. rewrite Hx. assumption.
Qed.

Lemma split_pieces_no_sep sep s :
  Forall (fun p => PyStr.contains sep p = false) (PyStr.split sep s).
Proof.
  induction s as [|x rest IH]; simpl.
  - repeat constructor.
  - destruct (Ascii.eqb x sep) eqn:Hx.
    + constructor; [reflexivity | exact IH].
    + destruct (PyStr.split sep rest) as [|w ws].
      * repeat constructor. simpl. rewrite Hx. reflexivity.
      * inversion IH; subst. constructor; [|assumption].
        simpl. rewrite Hx. assumption.
Qed.

Lemma last_piece_Forall (P : string -> Prop) pieces :
  P "" -> Forall P pieces -> P (PyStr.last_piece pieces).
Proof.
  intros Hd Hall. unfold PyStr.last_piece.
  induction Hall as [|p ps Hp Hps IH]; [exact Hd|].
  destruct ps; [exact Hp | exact IH].
Qed.

Lemma join_empty_absent c pieces :
  Forall (fun p => PyStr.contains c p = false) pieces ->
  PyStr.contains c (PyStr.join "" pieces) = false.
Proof.
  induction 1 as [|p ps Hp Hps IH]; [reflexivity|].
  destruct ps as [|q ps]; [exact Hp|].
  change (PyStr.join "" (p :: q :: ps)) with (p +:+ "" +:+ PyStr.join "" (q :: ps)).
  rewrite !contains_app, Hp, IH. reflexivity.
Qed.

Section CaseChange.
(** A character that changing the case of a letter neither produces nor
    removes. *)
Variable c : ascii.
Hypothesis to_upper_c : forall x, Ascii.eqb (PyStr.to_upper x) c = Ascii.eqb x c.
Hypothesis to_lower_c : forall x, Ascii.eqb (PyStr.to_lower x) c = Ascii.eqb x c.

Lemma contains_lower s : PyStr.contains c (PyStr.lower s) = PyStr.contains c s.
Proof.
  induction s as [|x rest IH]; simpl; [reflexivity|].
  rewrite to_lower_c, IH. reflexivity.
Qed.

Lemma contains_capitalize s :
  PyStr.contains c (PyStr.capitalize s) = PyStr.contains c s.
Proof.
  destruct s as [|x rest]; simpl; [reflexivity|].
  rewrite to_upper_c, contains_lower. reflexivity.
Qed.

Lemma capitalize_pieces_absent pieces :
  Forall (fun p => PyStr.contains c p = false) pieces ->
  Forall (fun p => PyStr.contains c p = false) (PyStr.capitalize <$> pieces).
Proof.
  induction 1 as [|p ps Hp Hps IH]; [constructor|].
  rewrite fmap_cons. constructor; [|exact IH].
  rewrite contains_capitalize. exact Hp.
Qed.

(** Lower-casing commutes with splitting on such a character. *)
Lemma split_lower s :
  PyStr.split c (PyStr.lower s) = PyStr.lower <$> PyStr.split c s.
Proof.
  induction s as [|x rest IH]; [reflexivity|].
  cbn [PyStr.lower PyStr.split]. rewrite to_lower_c, IH.
  destruct (Ascii.eqb x c); [reflexivity|].
  destruct (PyStr.split c rest); reflexivity.
Qed.

End CaseChange.

Lemma to_upper_underscore x : Ascii.eqb (PyStr.to_upper x) "_" = Ascii.eqb x "_".
Proof. destruct x as [[] [] [] [] [] [] [] []]; reflexivity. Qed.

Lemma to_lower_underscore x : Ascii.eqb (PyStr.to_lower x) "_" = Ascii.eqb x "_".
Proof. destruct x as [[] [] [] [] [] [] [] []]; reflexivity. Qed.

Lemma to_upper_dot x : Ascii.eqb (PyStr.to_upper x) "." = Ascii.eqb x ".".
Proof. destruct x as [[] [] [] [] [] [] [] []]; reflexivity. Qed.

Lemma to_lower_dot x : Ascii.eqb (PyStr.to_lower x) "." = Ascii.eqb x ".".
Proof. destruct x as [[] [] [] [] [] [] [] []]; reflexivity. Qed.

Lemma to_upper_to_lower x : PyStr.to_upper (PyStr.to_lower x) = PyStr.to_upper x.
Proof. destruct x as [[] [] [] [] [] [] [] []]; reflexivity. Qed.

Lemma to_lower_idemp x : PyStr.to_lower (PyStr.to_lower x) = PyStr.to_lower x.
Proof. destruct x as [[] [] [] [] [] [] [] []]; reflexivity. Qed.

Lemma lower_idemp s : PyStr.lower (PyStr.lower s) = PyStr.lower s.
Proof.
  induction s as [|x rest IH]; simpl; [reflexivity|].
  rewrite to_lower_idemp, IH. reflexivity.
Qed.

Lemma capitalize_lower s : PyStr.capitalize (PyStr.lower s) = PyStr.capitalize s.
Proof.
  destruct s as [|x rest]; simpl; [reflexivity|].
  rewrite to_upper_to_lower, lower_idemp. reflexivity.
Qed.

Lemma last_piece_lower pieces :
  PyStr.last_piece (PyStr.lower <$> pieces) = PyStr.lower (PyStr.last_piece pieces).
Proof.
  unfold PyStr.last_piece. induction pieces as [|p ps IH]; [reflexivity|].
  destruct ps as [|q ps]; [reflexivity|]. exact IH.
Qed.

Lemma scorer_clsname_lower name :
  scorer_clsname (PyStr.lower name) = scorer_clsname name.
Proof.
  unfold scorer_clsname.
  rewrite (split_lower "." to_lower_dot), last_piece_lower.
  rewrite (split_lower "_" to_lower_underscore). f_equal.
  induction (PyStr.split "_" (PyStr.last_piece (PyStr.split "." name)))
    as [|p ps IH]; [reflexivity|].
  rewrite !fmap_cons, capitalize_lower, IH. reflexivity.
Qed.

(** X13: the class name derived from any name contains neither an underscore
    nor a dot. *)
Theorem scorer_clsname_plain (name : string) :
  PyStr.contains "_" (scorer_clsname name) = false /\
  PyStr.contains "." (scorer_clsname name) = false.
Proof.
  unfold scorer_clsname.
  assert (Hseg : PyStr.contains "."
            (PyStr.last_piece (PyStr.split "." name)) = false).
  { apply (last_piece_Forall (fun p => PyStr.contains "." p = false));
      [reflexivity | apply split_pieces_no_sep]. }
  split; apply join_empty_absent.
  - apply (capitalize_pieces_absent "_" to_upper_underscore to_lower_underscore),
      split_pieces_no_sep.
  - apply (capitalize_pieces_absent "." to_upper_dot to_lower_dot),
      split_pieces_absent, Hseg.
Qed.

(** X14: two names that differ only in the case of their letters derive the
    same class name. *)
Theorem scorer_clsname_ignores_case (name1 name2 : string) :
  PyStr.lower name1 = PyStr.lower name2 ->
  scorer_clsname name1 = scorer_clsname name2.
Proof.
  intros Hlow.
  rewrite <- (scorer_clsname_lower name1), <- (scorer_clsname_lower name2), Hlow.
  reflexivity.
Qed.

Lemma scorer_clsname_ignores_case_example :
  scorer_clsname "caprasingh07.JS_Divergence" = scorer_clsname "caprasingh07.js_divergence".
Proof.
  apply (scorer_clsname_ignores_case "caprasingh07.JS_Divergence"
           "caprasingh07.js_divergence").
  reflexivity.
Defined.

(** X15: the class name depends on nothing before the last dot of the name:
    putting a namespace path in front of a name does not change it. *)
Theorem scorer_clsname_ignores_namespace (ns name : string) :
  scorer_clsname (ns +:+ "." +:+ name) = scorer_clsname name.
Proof.
  unfold scorer_clsname.
  change (ns +:+ "." +:+ name) with (ns +:+ String "." name).
  rewrite last_piece_split_app. reflexivity.
Qed.

(** ** The test-set script *)

Section Script.
Import ComputeTestset.
Context {E F P A : Type}.
Variable new_alignment : string -> F -> P -> E + A.
Variable DC : gmap string (DatasetConfig E F P).
Implicit Types (dc : DatasetConfig E F P) (st : state A) (status : option (failure E)).

(** What the loop leaves: the output untouched, and after the alignments it
    started with those of a prefix of the files, in order; the prefix is the
    whole list exactly when the loop ends without a failure. *)
Lemma read_all_inv dc files st st' status :
  read_all new_alignment dc files st = (st', status) ->
  stdout st' = stdout st /\
  exists read,
    alns st' = (alns st ++ read)%list /\
    Forall2 (reads new_alignment dc) (take (length read) files) read /\
    (length read <= length files)%nat /\
    (status = None <-> length read = length files) /\
    forall f, status = Some f -> exists e, f = Collaborator e.
Proof.
  revert st. induction files as [|file rest IH]; intros st; cbn [read_all].
  - intros [= <- <-]. split; [reflexivity|]. exists [].
    rewrite app_nil_r. repeat split; try constructor; try discriminate.
  - assert (Hstop : forall e, (st, Some (Collaborator e)) = (st', status) ->
              stdout st' = stdout st /\
              exists read,
                alns st' = (alns st ++ read)%list /\
                Forall2 (reads new_alignment dc)
                        (take (length read) (file :: rest)) read /\
                (length read <= length (file :: rest))%nat /\
                (status = None <-> length read = length (file :: rest)) /\
                forall f, status = Some f -> exists e, f = Collaborator e).
    { intros e [= <- <-]. split; [reflexivity|]. exists [].
      rewrite app_nil_r. split; [reflexivity|]. split; [constructor|].
      split; [simpl; lia|]. split; [split; discriminate|].
      intros f [= <-]. eauto. }
    destruct (get_test_file dc file) as [e|test_file] eqn:Htest; [apply Hstop|].
    destruct (new_alignment file test_file (parse_testset_fn dc)) as [e|aln] eqn:Hnew;
      [apply Hstop|].
    intros Hrun. apply IH in Hrun as (Hout & read & Halns & Hall & Hlen & Hiff & Hfail).
    cbn [stdout alns] in Hout, Halns.
    split; [exact Hout|]. exists (aln :: read).
    split; [rewrite Halns, <- app_assoc; reflexivity|].
    split; [|split; [simpl; lia|split; [|exact Hfail]]].
    + cbn [length take]. constructor; [|exact Hall].
      exists test_file. split; assumption.
    + rewrite Hiff. simpl. lia.
Qed.

(** Files that are all read extend the list by their alignments, and the
    loop goes on with what follows them. *)
Lemma read_all_app dc files rest read st :
  Forall2 (reads new_alignment dc) files read ->
  read_all new_alignment dc (files ++ rest) st =
    read_all new_alignment dc rest (mkState (stdout st) (alns st ++ read)).
Proof.
  intros Hall. revert st.
  induction Hall as [|file aln files read (test_file & Htest & Hnew) _ IH]; intros st.
  - simpl. rewrite app_nil_r. destruct st; reflexivity.
  - cbn [app read_all]. rewrite Htest, Hnew, IH. cbn [stdout alns].
    rewrite <- app_assoc. reflexivity.
Qed.

(** X16: when no dataset name follows the script's name on the command line
    the run ends with the IndexError of [sys.argv[1]], and when that name is
    not a key of DATASET_CONFIGS with the KeyError of the lookup; either way
    nothing has been printed or read. *)
Theorem main_argument_errors (argv : list string) (f : failure E) :
  ((length argv <= 1)%nat /\ f = IndexError) \/
  (exists key, argv !! 1%nat = Some key /\ DC !! key = None /\ f = KeyError key) ->
  main new_alignment DC argv = (mkState [] [], Some f).
Proof.
  unfold main. intros [[Hlen ->]|(key & Hkey & Hnone & ->)].
  - apply lookup_ge_None in Hlen. rewrite Hlen. reflexivity.
  - rewrite Hkey, Hnone. reflexivity.
Qed.

(** X17: once the dataset is found and lists its files, the run prints their
    number, once, before reading any; [alns] holds the alignments of a
    prefix of the files, in their order, and it holds one for every file
    exactly when the run ends without a failure. *)
Theorem main_run_invariant
    (argv : list string) (key : string) (dc : DatasetConfig E F P)
    (files : list string) (st : state A) (status : option (failure E)) :
  argv !! 1%nat = Some key ->
  DC !! key = Some dc ->
  get_align_files dc = inr files ->
  main new_alignment DC argv = (st, status) ->
  stdout st = [pretty (length files)] /\
  Forall2 (reads new_alignment dc) (take (length (alns st)) files) (alns st) /\
  (length (alns st) <= length files)%nat /\
  (status = None <-> length (alns st) = length files).
Proof.
  intros Hkey Hdc Hfiles. unfold main. rewrite Hkey, Hdc, Hfiles.
  intros Hrun. apply read_all_inv in Hrun as (Hout & read & Halns & Hall & Hlen & Hiff & _).
  cbn [print stdout alns app] in Hout, Halns. rewrite Halns.
  repeat split; try assumption; apply Hiff.
Qed.

(** X18: when every file of the dataset is read, the run ends without a
    failure, having printed the number of files and collected their
    alignments in the order of the files. *)
Theorem main_reads_every_file
    (argv : list string) (key : string) (dc : DatasetConfig E F P)
    (files : list string) (read : list A) :
  argv !! 1%nat = Some key ->
  DC !! key = Some dc ->
  get_align_files dc = inr files ->
  Forall2 (reads new_alignment dc) files read ->
  main new_alignment DC argv = (mkState [pretty (length files)] read, None).
Proof.
  intros Hkey Hdc Hfiles Hall. unfold main. rewrite Hkey, Hdc, Hfiles.
  pose proof (read_all_app dc files [] read
                (print (mkState [] []) (pretty (length files))) Hall) as Hrun.
  rewrite app_nil_r in Hrun. rewrite Hrun. reflexivity.
Qed.

(** X19: the run stops at the first file that is not read, with the
    exception of the collaborator that failed; the count is printed, the
    alignments of the files before it are kept and no later file is
    touched. *)
Theorem main_stops_at_first_failure
    (argv : list string) (key : string) (dc : DatasetConfig E F P)
    (before after : list string) (file : string) (read : list A) (e : E) :
  argv !! 1%nat = Some key ->
  DC !! key = Some dc ->
  get_align_files dc = inr (before ++ file :: after)%list ->
  Forall2 (reads new_alignment dc) before read ->
  fails new_alignment dc file e ->
  main new_alignment DC argv =
    (mkState [pretty (length (before ++ file :: after)%list)] read,
     Some (Collaborator e)).
Proof.
  intros Hkey Hdc Hfiles Hall Hfail. unfold main. rewrite Hkey, Hdc, Hfiles.
  rewrite (read_all_app dc before (file :: after) read _ Hall).
  cbn [read_all print stdout alns app].
  destruct Hfail as [Htest|(test_file & Htest & Hnew)].
  - rewrite Htest. reflexivity.
  - rewrite Htest, Hnew. reflexivity.
Qed.

End Script.

Lemma main_argument_errors_unknown :
  ComputeTestset.main TestsetExample.new_alignment TestsetExample.DC
    ["compute_testset.py"; "scop"]
  = (ComputeTestset.mkState [] [], Some (ComputeTestset.KeyError "scop")).
Proof.
  apply (main_argument_errors TestsetExample.new_alignment TestsetExample.DC
           ["compute_testset.py"; "scop"] (ComputeTestset.KeyError "scop")).
  right. exists "scop". split; [reflexivity|]. split; [vm_compute|]; reflexivity.
Defined.

Lemma main_run_invariant_cdd :
  ComputeTestset.stdout
    (ComputeTestset.mkState ["3"] [("a.aln", "a.aln.test")]) = [pretty 3%nat] /\
  Forall2 (ComputeTestset.reads TestsetExample.new_alignment TestsetExample.cdd)
    (take 1 ["a.aln"; "b.aln"; "c.aln"]) [("a.aln", "a.aln.test")] /\
  (1 <= 3)%nat /\
  (Some (ComputeTestset.Collaborator "no test file") = None <-> 1%nat = 3%nat).
Proof.
  apply (main_run_invariant TestsetExample.new_alignment TestsetExample.DC
           ["compute_testset.py"; "cdd"] "cdd" TestsetExample.cdd
           ["a.aln"; "b.aln"; "c.aln"]
           (ComputeTestset.mkState ["3"] [("a.aln", "a.aln.test")])
           (Some (ComputeTestset.Collaborator "no test file"))).
  - reflexivity.
  - vm_compute. reflexivity.
  - reflexivity.
  - vm_compute. reflexivity.
Defined.

Lemma main_reads_every_file_pfam :
  ComputeTestset.main TestsetExample.new_alignment TestsetExample.DC
    ["compute_testset.py"; "pfam"]
  = (ComputeTestset.mkState ["3"]
       [("a.aln", "a.aln.test"); ("b.aln", "b.aln.test"); ("c.aln", "c.aln.test")],
     None).
Proof.
  apply (main_reads_every_file TestsetExample.new_alignment TestsetExample.DC
           ["compute_testset.py"; "pfam"] "pfam" TestsetExample.pfam
           ["a.aln"; "b.aln"; "c.aln"]).
  - reflexivity.
  - vm_compute. reflexivity.
  - reflexivity.
  - repeat constructor; eexists; split; reflexivity.
Defined.

Lemma main_stops_at_first_failure_cdd :
  ComputeTestset.main TestsetExample.new_alignment TestsetExample.DC
    ["compute_testset.py"; "cdd"]
  = (ComputeTestset.mkState ["3"] [("a.aln", "a.aln.test")],
     Some (ComputeTestset.Collaborator "no test file")).
Proof.
  apply (main_stops_at_first_failure TestsetExample.new_alignment TestsetExample.DC
           ["compute_testset.py"; "cdd"] "cdd" TestsetExample.cdd
           ["a.aln"] ["c.aln"] "b.aln").
  - reflexivity.
  - vm_compute. reflexivity.
  - reflexivity.
  - repeat constructor; eexists; split; reflexivity.
  - left. reflexivity.
Defined.
